(** * pyBusPirateLite: the bitbang-mode protocol core (BitBang.py)

    A shallow embedding of the class [BitBang] of
    [pyBusPirateLite/BitBang.py]: Python values with the arithmetic the
    methods use (IEEE binary64 through the kernel's primitive floats),
    a state-and-exception monad for the session, and the methods
    themselves, followed by the properties proved about them. *)

From Stdlib Require Import ZArith List String Ascii Bool Lia.
From Stdlib.Strings Require Import Byte.
From Stdlib Require Import Floats.
Import ListNotations.

Set Warnings "-inexact-float".
Local Open Scope Z_scope.

(** ** Python values *)

(** The numeric arguments of [set_pwm_frequency]: a Python [int] or
    [float]. *)
Inductive number : Type :=
| NInt (z : Z)
| NFloat (f : float).

(** The objects the methods receive from the port and hand back to
    their callers: integers, floats, [str], [bytes] and [None]. *)
Inductive value : Type :=
| VInt (z : Z)
| VFloat (f : float)
| VStr (s : string)
| VBytes (l : list byte)
| VNone.

(** What a global name can be bound to: an opaque object (a module, a
    class, a builtin function) or a number. *)
Inductive binding : Type :=
| BObject
| BNumber (n : number).

(** The exceptions the methods raise or let through. *)
Inductive exn : Type :=
| NameError (name : string)
| ValueError (msg : string)
| TypeError
| IndexError
| KeyError
| ZeroDivisionError
| OverflowError
| ProtocolError (msg : string)
| ModeError (expected : string)
| RetryError.

(** How a call ends: with a value, with an exception, or (in the
    fuelled definitions of the two self-retrying methods only) without
    an answer because the fuel ran out. *)
Inductive outcome (A : Type) : Type :=
| Return (a : A)
| Raise (e : exn)
| OutOfFuel.
Arguments Return {A} a.
Arguments Raise {A} e.
Arguments OutOfFuel {A}.

Definition obind {A B} (o : outcome A) (k : A -> outcome B) : outcome B :=
  match o with
  | Return a => k a
  | Raise e => Raise e
  | OutOfFuel => OutOfFuel
  end.

Declare Scope outcome_scope.
Delimit Scope outcome_scope with outcome.
Notation "x <~ o ;; k" := (obind o (fun x => k))
  (at level 100, o at next level, right associativity) : outcome_scope.

(** ** Floating point *)

Module PyFloat.

(** Conversion of a Python [int] to [float]: round to nearest even,
    [OverflowError] when the integer is beyond the binary64 range. *)
Definition round_Z (z : Z) : float :=
  SF2Prim (binary_normalize prec emax z 0 false).

Definition of_Z (z : Z) : outcome float :=
  let f := round_Z z in
  if is_infinity f then Raise OverflowError else Return f.

(** [int(f)]: truncation towards zero; [ValueError] on NaN and
    [OverflowError] on an infinity. *)
Definition trunc (f : float) : outcome Z :=
  match Prim2SF f with
  | S754_nan => Raise (ValueError "cannot convert float NaN to integer")
  | S754_infinity _ => Raise OverflowError
  | S754_zero _ => Return 0
  | S754_finite s m e =>
      let a := if 0 <=? e then Z.shiftl (Zpos m) e
               else Z.shiftr (Zpos m) (- e) in
      Return (if s then - a else a)
  end.

(** Exact comparison of a float with an integer, as Python does it:
    [None] when the float is NaN (every ordering test is then false). *)
Definition compare_Z (f : float) (z : Z) : option comparison :=
  match Prim2SF f with
  | S754_nan => None
  | S754_infinity s => Some (if s then Lt else Gt)
  | S754_zero _ => Some (0 ?= z)
  | S754_finite s m e =>
      let mz := if s then Zneg m else Zpos m in
      Some (if 0 <=? e then (Z.shiftl mz e ?= z)
            else (mz ?= Z.shiftl z (- e)))
  end.

Definition ltb_Z (f : float) (z : Z) : bool :=
  match compare_Z f z with Some Lt => true | _ => false end.

Definition gtb_Z (f : float) (z : Z) : bool :=
  match compare_Z f z with Some Gt => true | _ => false end.

End PyFloat.

(** ** Operators *)

(** [a / n] with a float on the left. *)
Definition float_truediv (a : float) (n : number) : outcome float :=
  match n with
  | NInt z =>
      if z =? 0 then Raise ZeroDivisionError
      else (f <~ PyFloat.of_Z z ;; Return (a / f)%float)%outcome
  | NFloat f =>
      if is_zero f then Raise ZeroDivisionError else Return (a / f)%float
  end.

(** [a * n] with a float on the left. *)
Definition float_mul (a : float) (n : number) : outcome float :=
  match n with
  | NInt z => (f <~ PyFloat.of_Z z ;; Return (a * f)%float)%outcome
  | NFloat f => Return (a * f)%float
  end.

(** [a * n] with an integer on the left. *)
Definition int_mul (a : Z) (n : number) : outcome number :=
  match n with
  | NInt z => Return (NInt (a * z))
  | NFloat f => (fa <~ PyFloat.of_Z a ;; Return (NFloat (fa * f)%float))%outcome
  end.

(** [int(n)]. *)
Definition py_int (n : number) : outcome Z :=
  match n with
  | NInt z => Return z
  | NFloat f => PyFloat.trunc f
  end.

(** A global used as an operand of [>], [*] or [/]: modules, classes
    and functions support none of them. *)
Definition operand (b : binding) : outcome number :=
  match b with
  | BNumber n => Return n
  | BObject => Raise TypeError
  end.

(** [n > k] for an integer literal [k]. *)
Definition py_gt (n : number) (k : Z) : bool :=
  match n with
  | NInt z => k <? z
  | NFloat f => PyFloat.gtb_Z f k
  end.

(** [v[i]]: indexing [bytes] gives an integer, indexing [str] a
    one-character string. *)
Definition py_getitem (v : value) (i : nat) : outcome value :=
  match v with
  | VBytes l =>
      match nth_error l i with
      | Some b => Return (VInt (Z.of_N (Byte.to_N b)))
      | None => Raise IndexError
      end
  | VStr s =>
      match String.get i s with
      | Some c => Return (VStr (String c EmptyString))
      | None => Raise IndexError
      end
  | VInt _ | VFloat _ | VNone => Raise TypeError
  end.

(** [v << k]: defined on integers only. *)
Definition py_lshift (v : value) (k : Z) : outcome Z :=
  match v with
  | VInt z => Return (Z.shiftl z k)
  | VFloat _ | VStr _ | VBytes _ | VNone => Raise TypeError
  end.

(** [a + v] with an integer on the left. *)
Definition int_add (a : Z) (v : value) : outcome number :=
  match v with
  | VInt z => Return (NInt (a + z))
  | VFloat f => (fa <~ PyFloat.of_Z a ;; Return (NFloat (fa + f)%float))%outcome
  | VStr _ | VBytes _ | VNone => Raise TypeError
  end.

(** [n * c] with a float on the right. *)
Definition mul_float (n : number) (c : float) : outcome float :=
  match n with
  | NInt z => (f <~ PyFloat.of_Z z ;; Return (f * c)%float)%outcome
  | NFloat f => Return (f * c)%float
  end.

(** [v != lit] against a [str] literal: objects of different types are
    never equal, so a [bytes] object always differs from a [str]. *)
Definition py_ne_str (v : value) (lit : string) : bool :=
  match v with
  | VStr s => negb (String.eqb s lit)
  | VInt _ | VFloat _ | VBytes _ | VNone => true
  end.

(** Truth value of an object, as [if v:] tests it. *)
Definition truthy (v : value) : bool :=
  match v with
  | VInt z => negb (z =? 0)
  | VFloat f => negb (is_zero f)
  | VStr s => negb (String.eqb s EmptyString)
  | VBytes l => match l with [] => false | _ :: _ => true end
  | VNone => false
  end.

(** [ord(v)]: a [str] or [bytes] of length one. *)
Definition py_ord (v : value) : outcome Z :=
  match v with
  | VStr (String c EmptyString) => Return (Z.of_N (N_of_ascii c))
  | VBytes [b] => Return (Z.of_N (Byte.to_N b))
  | _ => Raise TypeError
  end.

(** ** Name resolution *)

Definition namespace : Type := list (string * binding).

Fixpoint lookup (name : string) (ns : namespace) : option binding :=
  match ns with
  | [] => None
  | (k, b) :: rest => if String.eqb k name then Some b else lookup name rest
  end.

(** The names the statements of BitBang.py bind at module level:
    [import serial], [from .BBIO_base import BBIO_base, BPError,
    ProtocolError] and [class BitBang]. *)
Definition module_namespace : namespace :=
  [ ("serial", BObject); ("BBIO_base", BObject); ("BPError", BObject);
    ("ProtocolError", BObject); ("BitBang", BObject) ]%string.

(** The builtin functions and exception classes of Python 3. *)
Definition builtins : namespace :=
  map (fun k => (k, BObject))
    [ "abs"; "all"; "any"; "ascii"; "bin"; "bool"; "breakpoint"; "bytearray";
      "bytes"; "callable"; "chr"; "classmethod"; "compile"; "complex";
      "delattr"; "dict"; "dir"; "divmod"; "enumerate"; "eval"; "exec";
      "filter"; "float"; "format"; "frozenset"; "getattr"; "globals";
      "hasattr"; "hash"; "help"; "hex"; "id"; "input"; "int"; "isinstance";
      "issubclass"; "iter"; "len"; "list"; "locals"; "map"; "max";
      "memoryview"; "min"; "next"; "object"; "oct"; "open"; "ord"; "pow";
      "print"; "property"; "range"; "repr"; "reversed"; "round"; "set";
      "setattr"; "slice"; "sorted"; "staticmethod"; "str"; "sum"; "super";
      "tuple"; "type"; "vars"; "zip";
      "BaseException"; "Exception"; "ArithmeticError"; "AssertionError";
      "AttributeError"; "EOFError"; "IOError"; "ImportError"; "IndexError";
      "KeyError"; "KeyboardInterrupt"; "LookupError"; "MemoryError";
      "NameError"; "NotImplementedError"; "OSError"; "OverflowError";
      "RecursionError"; "RuntimeError"; "StopIteration"; "SyntaxError";
      "SystemExit"; "TypeError"; "UnboundLocalError"; "UnicodeError";
      "ValueError"; "ZeroDivisionError" ]%string.

(** A name that the function never assigns is looked up in the module
    globals, then in the builtins; failing both is a [NameError]. *)
Definition load_global (G : namespace) (name : string) : outcome binding :=
  match lookup name G with
  | Some b => Return b
  | None =>
      match lookup name builtins with
      | Some b => Return b
      | None => Raise (NameError name)
      end
  end.

(** ** The session *)

(** What the host does to the port, in order. *)
Inductive event : Type :=
| EvWrite (b : byte)
| EvTimeout (seconds : float)
| EvRead (n : nat) (data : list byte)
| EvFlushInput
| EvEnterBB.

(** The state of a [BitBang] object: the attributes the methods use and
    the serial port.  The port is a script: [rx] lists what each
    successive read of the port delivers (an entry shorter than the
    count asked for is a read that timed out), and [log] records what
    the host did. *)
Record session : Type := mkSession {
  mode : string;
  minDelay : float;
  attempts : nat;
  retry_limit : nat;
  rx : list (list byte);
  log : list event
}.

Definition emit (e : event) (s : session) : session :=
  mkSession (mode s) (minDelay s) (attempts s) (retry_limit s) (rx s)
            (log s ++ [e]).

Definition set_rx (r : list (list byte)) (s : session) : session :=
  mkSession (mode s) (minDelay s) (attempts s) (retry_limit s) r (log s).

Definition set_attempts (a : nat) (s : session) : session :=
  mkSession (mode s) (minDelay s) a (retry_limit s) (rx s) (log s).

Definition set_mode (m : string) (s : session) : session :=
  mkSession m (minDelay s) (attempts s) (retry_limit s) (rx s) (log s).

(** Methods are state transformers that end in an [outcome]. *)
Definition M (A : Type) : Type := session -> outcome A * session.

Definition ret {A} (a : A) : M A := fun s => (Return a, s).

Definition raise {A} (e : exn) : M A := fun s => (Raise e, s).

Definition out_of_fuel {A} : M A := fun s => (OutOfFuel, s).

Definition lift {A} (o : outcome A) : M A := fun s => (o, s).

Definition bind {A B} (m : M A) (k : A -> M B) : M B :=
  fun s =>
    match m s with
    | (Return a, s') => k a s'
    | (Raise e, s') => (Raise e, s')
    | (OutOfFuel, s') => (OutOfFuel, s')
    end.

Declare Scope method_scope.
Delimit Scope method_scope with method.
Notation "x <- m ;; k" := (bind m (fun x => k))
  (at level 100, m at next level, right associativity) : method_scope.
Notation "m ;; k" := (bind m (fun _ => k))
  (at level 100, right associativity) : method_scope.
Local Open Scope method_scope.

(** ** The collaborators of the protocol core

    [BitBang] inherits from [BBIO_base], whose file is not part of the
    sources at hand; its methods are modelled from the interface the
    specification gives for them. *)

(** Read an attribute of [self]. *)
Definition attr {A} (field : session -> A) : M A := fun s => (Return (field s), s).

(** Modelled from the spec: [BBIO_base.write] is missing; "write(byte) -
    transmit one byte".  An integer that is not a byte has no
    transmission: it raises [OverflowError] here. *)
Definition write (v : Z) : M unit :=
  fun s =>
    match (if 0 <=? v then Byte.of_N (Z.to_N v) else None) with
    | Some b => (Return tt, emit (EvWrite b) s)
    | None => (Raise OverflowError, s)
    end.

(** Modelled from the spec: [BBIO_base.response] is missing;
    "response(n, raw=false) - block until n bytes are available or
    timeout; return them; a raw flag selects byte-vs-decoded return
    form".  The raw form is a [bytes] object, the decoded form the [str]
    with one character per byte. *)
Definition response (n : nat) (binary : bool) : M value :=
  fun s =>
    let data := firstn n (hd [] (rx s)) in
    let s' := emit (EvRead n data) (set_rx (tl (rx s)) s) in
    (Return (if binary then VBytes data else VStr (string_of_list_byte data)), s').

(** Modelled from the spec: [BBIO_base.timeout] is missing;
    "timeout(seconds) - set the pending-read deadline". *)
Definition timeout (seconds : float) : M unit :=
  fun s => (Return tt, emit (EvTimeout seconds) s).

(** [self.port.flushInput()]: "discard buffered unread input".  What is
    left to read afterwards is given by the script [rx]. *)
Definition flushInput : M unit :=
  fun s => (Return tt, emit EvFlushInput s).

(** The name of bitbang mode in the session's [mode] attribute. *)
Definition bitbang_mode : string := "bb".

(** Modelled from the spec: [BBIO_base.enter_bb] is missing;
    "enter() / enter_bb() - perform/re-perform the handshake into
    bitbang mode".  The handshake is one event; its own traffic is the
    collaborator's. *)
Definition enter_bb : M unit :=
  fun s => (Return tt, set_mode bitbang_mode (emit EvEnterBB s)).

(** Modelled from the spec: [BBIO_base.check_mode] is missing;
    "check_mode(name) - fail if current mode <> name", the failure being
    the spec's ModeError. *)
Definition check_mode (name : string) : M unit :=
  fun s =>
    if String.eqb (mode s) name then (Return tt, s)
    else (Raise (ModeError name), s).

(** Modelled from the spec: [BBIO_base.recurse_end] is missing; the
    Retry Helper's "sentinel stop-recursing signal": the count of
    re-invocations starts afresh. *)
Definition recurse_end : M unit :=
  fun s => (Return tt, set_attempts 0 s).

(** Modelled from the spec: [BBIO_base.recurse] is missing; "bounded
    re-invocation of an operation ... used to guard against runaway
    retries": the operation is invoked again while the count is below
    the session's limit, and the helper fails once it is reached. *)
Definition recurse {A} (f : M A) : M A :=
  fun s =>
    if (attempts s <? retry_limit s)%nat
    then f (set_attempts (S (attempts s)) s)
    else (Raise RetryError, s).

(** ** The methods of [BitBang] *)

(** The acknowledgment the source compares with: the literal ['\x01']. *)
Definition x01_str : string := String (ascii_of_byte x01) EmptyString.

(** Lines 61-62 and 77-78:
    [voltage = (ret[0] << 8) + ret[1]; voltage = (voltage * 6.6) / 1024]. *)
Definition decode_voltage (ret_ : value) : outcome float :=
  (b0 <~ py_getitem ret_ 0 ;;
   hi <~ py_lshift b0 8 ;;
   b1 <~ py_getitem ret_ 1 ;;
   voltage <~ int_add hi b1 ;;
   scaled <~ mul_float voltage 6.6 ;;
   float_truediv scaled (NInt 1024))%outcome.

(** The property [adc]. *)
Definition adc : M value :=
  write 0x14 ;;
  d <- attr minDelay ;;
  timeout d ;;
  ret_ <- response 2 true ;;
  voltage <- lift (decode_voltage ret_) ;;
  ret (VFloat voltage).

Definition start_getting_adc_voltages : M value :=
  write 0x15 ;;
  ret VNone.

(** The body of [get_next_adc_voltage]; [self] is the method that the
    last line hands to [recurse]. *)
Definition get_next_adc_voltage_body (self : M value) : M value :=
  ret_ <- response 2 true ;;
  voltage <- lift (decode_voltage ret_) ;;
  if PyFloat.ltb_Z voltage 10 then
    recurse_end ;;
    ret (VFloat voltage)
  else
    response 1 true ;;
    flushInput ;;
    recurse self.

Fixpoint get_next_adc_voltage_fuel (fuel : nat) : M value :=
  match fuel with
  | O => out_of_fuel
  | S fuel' => get_next_adc_voltage_body (get_next_adc_voltage_fuel fuel')
  end.

(** The method itself: every re-invocation goes through [recurse], which
    raises once [attempts] has reached [retry_limit], so this much fuel
    is never used up. *)
Definition get_next_adc_voltage : M value :=
  fun s => get_next_adc_voltage_fuel (S (retry_limit s - attempts s)) s.

(** The loop [for i in range(5)] of [stop_getting_adc_voltages], with
    [k] iterations to go. *)
Fixpoint probe_loop (k : nat) : M unit :=
  match k with
  | O => ret tt
  | S k' =>
      write 0x00 ;;
      r <- response 1 true ;;
      if truthy r then ret tt else probe_loop k'
  end.

Definition stop_getting_adc_voltages : M value :=
  check_mode "adc" ;;
  flushInput ;;
  probe_loop 5 ;;
  flushInput ;;
  enter_bb ;;
  ret (VInt 1).

Definition selftest (complete : bool) : M value :=
  (if complete then write 0x11 else write 0x10) ;;
  d <- attr minDelay ;;
  timeout (d * 50)%float ;;
  errors <- response 1 false ;;
  write 0xff ;;
  r <- response 1 false ;;
  if py_ne_str r x01_str then
    raise (ProtocolError "Self test did not return to bitbang mode")
  else
    n <- lift (py_ord errors) ;;
    ret (VInt n).

Definition setup_PWM (prescaler dutycycle period : Z) : M value :=
  write 0x12 ;;
  write prescaler ;;
  write (Z.land (Z.shiftr dutycycle 8) 0xFF) ;;
  write (Z.land dutycycle 0xFF) ;;
  write (Z.land (Z.shiftr period 8) 0xFF) ;;
  write (Z.land period 0xFF) ;;
  d <- attr minDelay ;;
  timeout (d * 10)%float ;;
  r <- response 1 true ;;
  if py_ne_str r x01_str then raise (ValueError "Could not setup PWM mode")
  else ret VNone.

Definition disable_PWM : M value :=
  write 0x13 ;;
  d <- attr minDelay ;;
  timeout (d * 10)%float ;;
  r <- response 1 true ;;
  if py_ne_str r x01_str then raise (ValueError "Could not disable PWM mode")
  else ret VNone.

(** [PrescalerList = {0: 1, 1: 8, 2: 64, 3: 256}]. *)
Definition PrescalerList : list (Z * Z) := [(0, 1); (1, 8); (2, 64); (3, 256)].

Fixpoint dict_get (d : list (Z * Z)) (k : Z) : outcome Z :=
  match d with
  | [] => Raise KeyError
  | (k', v) :: rest => if k' =? k then Return v else dict_get rest k
  end.

(** The [for n in range(4): ... else: raise] loop of
    [set_pwm_frequency], over the values of [n] still to try.  It ends
    at the [break] with the [Prescaler], [OCR] and [PRy] of that
    iteration, or in the [else] clause. *)
Fixpoint prescaler_loop (G : namespace) (PwmPeriod Tcy : float) (ns : list Z)
  : outcome (Z * Z * Z) :=
  match ns with
  | [] => Raise (ValueError "frequency requested is invalid")
  | n :: rest =>
      (Prescaler <~ dict_get PrescalerList n ;;
       den <~ float_mul Tcy (NInt Prescaler) ;;
       PRy <~ float_truediv (PwmPeriod * 1.0)%float (NFloat den) ;;
       PRy <~ PyFloat.trunc (PRy - 1)%float ;;
       DutyCycle <~ load_global G "DutyCycle" ;;
       DutyCycle <~ operand DutyCycle ;;
       prod <~ int_mul PRy DutyCycle ;;
       OCR <~ py_int prod ;;
       if PRy <? 2 ^ 16 - 1 then Return (Prescaler, OCR, PRy)
       else prescaler_loop G PwmPeriod Tcy rest)%outcome
  end.

(** The body of [set_pwm_frequency(frequency, dutycycle)], run with the
    global namespace [G]; [self] is the method that the last line hands
    to [recurse], with [frequency] and whatever object the global
    [DutyCycle] is bound to.  The body never reads [dutycycle]. *)
Definition set_pwm_frequency_body (G : namespace)
  (self : number -> binding -> M value)
  (frequency : number) (dutycycle : binding) : M value :=
  DutyCycle <- lift (b <~ load_global G "DutyCycle" ;; operand b)%outcome ;;
  if py_gt DutyCycle 1 then
    raise (ValueError "Duty cycle should be between 0 and 1")
  else
    let Fosc := 24e6%float in
    let Tcy := (2.0 / Fosc)%float in
    PwmPeriod <- lift (float_truediv 1.0 frequency) ;;
    found <- lift (prescaler_loop G PwmPeriod Tcy [0; 1; 2; 3]) ;;
    let '(Prescaler, OCR, PRy) := found in
    ok <- setup_PWM Prescaler OCR PRy ;;
    if truthy ok then
      recurse_end ;;
      ret (VInt 1)
    else
      DutyCycle <- lift (load_global G "DutyCycle") ;;
      recurse (self frequency DutyCycle).

Fixpoint set_pwm_frequency_fuel (G : namespace) (fuel : nat)
  (frequency : number) (dutycycle : binding) : M value :=
  match fuel with
  | O => out_of_fuel
  | S fuel' =>
      set_pwm_frequency_body G (set_pwm_frequency_fuel G fuel') frequency dutycycle
  end.

Definition set_pwm_frequency_in (G : namespace) (frequency dutycycle : number)
  : M value :=
  fun s =>
    set_pwm_frequency_fuel G (S (retry_limit s - attempts s)) frequency
      (BNumber dutycycle) s.

(** The method as BitBang.py defines it: its globals are the module's. *)
Definition set_pwm_frequency (frequency dutycycle : number) : M value :=
  set_pwm_frequency_in module_namespace frequency dutycycle.

(** ** Vocabulary of the statements *)

(** The value of a byte on the wire. *)
Definition byte_value (b : byte) : Z := Z.of_N (Byte.to_N b).

(** The voltage the source computes from the 16-bit sample [raw]. *)
Definition sample_voltage (raw : Z) : float :=
  (PyFloat.round_Z raw * 6.6 / 1024)%float.

(** The big-endian 16-bit sample of two bytes. *)
Definition sample_raw (b0 b1 : byte) : Z :=
  Z.shiftl (byte_value b0) 8 + byte_value b1.

(** [f] holds on the [n] integers from [lo] on. *)
Fixpoint check_range (f : Z -> bool) (lo : Z) (n : nat) : bool :=
  match n with
  | O => true
  | S k => f lo && check_range f (lo + 1) k
  end.

(** What is checked of every 16-bit sample: its conversion to float
    does not overflow, the exact test against the integer 10 agrees with
    the floating-point comparisons, and the samples below 10 V are those
    up to 1551. *)
Definition sample_ok (raw : Z) : bool :=
  let v := sample_voltage raw in
  negb (is_infinity (PyFloat.round_Z raw))
  && Bool.eqb (PyFloat.ltb_Z v 10) (v <? 10)%float
  && Bool.eqb (10 <=? v)%float (negb (v <? 10)%float)
  && Bool.eqb (v <? 10)%float (raw <=? 1551).

(** One probe of the drain loop: the byte 0x00 goes out and one byte is
    asked for, [d] being what came back. *)
Definition probe (d : list byte) : list event := [EvWrite x00; EvRead 1 d].

(** A session in bitbang mode, with a delay of 10 ms and a retry limit
    of 15, in front of a device that answers by [script]. *)
Definition demo_session (script : list (list byte)) : session :=
  mkSession "bb" 0.01%float 0 15 script [].

(** The same session in adc mode. *)
Definition adc_session (script : list (list byte)) : session :=
  mkSession "adc" 0.01%float 0 15 script [].

(** The module namespace with [DutyCycle] bound to the float [d]. *)
Definition with_DutyCycle (d : float) : namespace :=
  ("DutyCycle"%string, BNumber (NFloat d)) :: module_namespace.

(** Lines 166-167 for one candidate: the period register
    [int(PwmPeriod * 1.0 / (Tcy * Prescaler) - 1)]. *)
Definition candidate_period (PwmPeriod Tcy : float) (Prescaler : Z)
  : outcome Z :=
  (den <~ float_mul Tcy (NInt Prescaler) ;;
   PRy <~ float_truediv (PwmPeriod * 1.0)%float (NFloat den) ;;
   PyFloat.trunc (PRy - 1)%float)%outcome.

(** The sample nearest to a voltage, and the check that it gives a
    sample back from its own voltage. *)
Definition raw_of_voltage (v : float) : Z :=
  match PyFloat.trunc (v * 1024 / 6.6 + 0.5)%float with
  | Return z => z
  | _ => -1
  end.

Definition sample_recovered (raw : Z) : bool :=
  raw_of_voltage (sample_voltage raw) =? raw.

(** * Properties *)

(** ** Sessions in constructor form *)

Lemma emit_mk e m d a r x l :
  emit e (mkSession m d a r x l) = mkSession m d a r x (l ++ [e]).
Proof. reflexivity. Qed.

Lemma set_rx_mk x' m d a r x l :
  set_rx x' (mkSession m d a r x l) = mkSession m d a r x' l.
Proof. reflexivity. Qed.

Lemma set_attempts_mk a' m d a r x l :
  set_attempts a' (mkSession m d a r x l) = mkSession m d a' r x l.
Proof. reflexivity. Qed.

Lemma set_mode_mk m' m d a r x l :
  set_mode m' (mkSession m d a r x l) = mkSession m' d a r x l.
Proof. reflexivity. Qed.

(** Bring the session updates of the goal to constructor form, innermost
    first. *)
Ltac norm_session :=
  repeat first [ rewrite emit_mk | rewrite set_rx_mk
               | rewrite set_attempts_mk | rewrite set_mode_mk ];
  cbn [mode minDelay attempts retry_limit rx log].

(** ** Bytes on the wire *)

Lemma byte_value_range (b : byte) : 0 <= byte_value b <= 255.
Proof.
  unfold byte_value. pose proof (Byte.to_N_bounded b). lia.
Qed.

(** Writing an integer that is a byte transmits the byte of that value. *)
Lemma write_byte (v : Z) (s : session) :
  0 <= v < 256 ->
  exists b, byte_value b = v /\ write v s = (Return tt, emit (EvWrite b) s).
Proof.
  intros Hv. unfold write.
  destruct (Z.leb_spec 0 v) as [_ | Hneg]; [| lia].
  destruct (Byte.of_N (Z.to_N v)) as [b |] eqn:Hb.
  - exists b. split; [| reflexivity].
    unfold byte_value. apply Byte.to_of_N in Hb. rewrite Hb. lia.
  - apply Byte.of_N_None_iff in Hb. lia.
Qed.

Lemma write_literal (b : byte) (s : session) :
  write (byte_value b) s = (Return tt, emit (EvWrite b) s).
Proof.
  unfold write, byte_value.
  destruct (Z.leb_spec 0 (Z.of_N (Byte.to_N b))) as [_ | Hneg]; [| lia].
  rewrite N2Z.id, Byte.of_to_N. reflexivity.
Qed.

Lemma land_byte (z : Z) : 0 <= Z.land z 0xFF < 256.
Proof.
  change 0xFF with (Z.ones 8). rewrite Z.land_ones by lia.
  apply Z.mod_pos_bound. lia.
Qed.

(** A [bytes] object never equals a [str]. *)
Lemma bytes_ne_str (l : list byte) (lit : string) :
  py_ne_str (VBytes l) lit = true.
Proof. reflexivity. Qed.

(** The decoded form of a single byte equals ['\x01'] exactly when the
    byte is 0x01. *)
Lemma decoded_ne_x01 (a : byte) :
  py_ne_str (VStr (string_of_list_byte [a])) x01_str = negb (Byte.eqb a x01).
Proof.
  change (string_of_list_byte [a]) with (String (ascii_of_byte a) EmptyString).
  unfold py_ne_str, x01_str. f_equal. cbn [String.eqb].
  destruct (Ascii.eqb_spec (ascii_of_byte a) (ascii_of_byte x01)) as [E | N].
  - apply (f_equal byte_of_ascii) in E.
    rewrite !byte_of_ascii_of_byte in E. subst a. reflexivity.
  - destruct (Byte.eqb a x01) eqn:Ha; [| reflexivity].
    apply Byte.byte_dec_bl in Ha. subst a. contradiction.
Qed.

Lemma ord_decoded (e : byte) :
  py_ord (VStr (string_of_list_byte [e])) = Return (byte_value e).
Proof.
  change (string_of_list_byte [e]) with (String (ascii_of_byte e) EmptyString).
  unfold py_ord, byte_value.
  rewrite ascii_of_byte_via_N, N_ascii_embedding; [reflexivity |].
  pose proof (Byte.to_N_bounded e). lia.
Qed.

(** ** ADC samples *)

Lemma sample_raw_range (b0 b1 : byte) : 0 <= sample_raw b0 b1 < 65536.
Proof.
  unfold sample_raw. rewrite Z.shiftl_mul_pow2 by lia.
  pose proof (byte_value_range b0). pose proof (byte_value_range b1).
  change (2 ^ 8) with 256. lia.
Qed.

Lemma check_range_spec (f : Z -> bool) (n : nat) :
  forall lo, check_range f lo n = true ->
  forall z, lo <= z < lo + Z.of_nat n -> f z = true.
Proof.
  induction n as [| k IH]; intros lo Hc z Hz.
  - simpl in Hz. lia.
  - cbn [check_range] in Hc. apply andb_prop in Hc. destruct Hc as [Hlo Hrest].
    destruct (Z.eq_dec z lo) as [-> | Hne]; [exact Hlo |].
    apply (IH (lo + 1) Hrest). lia.
Qed.

Lemma all_samples_ok : check_range sample_ok 0 (Z.to_nat 65536) = true.
Proof. vm_compute. reflexivity. Qed.

Lemma sample_facts (raw : Z) :
  0 <= raw < 65536 ->
  let v := sample_voltage raw in
  is_infinity (PyFloat.round_Z raw) = false
  /\ PyFloat.ltb_Z v 10 = (v <? 10)%float
  /\ (10 <=? v)%float = negb (v <? 10)%float
  /\ (v <? 10)%float = (raw <=? 1551).
Proof.
  intros Hr v.
  assert (Hok : sample_ok raw = true).
  { apply (check_range_spec sample_ok (Z.to_nat 65536) 0 all_samples_ok).
    rewrite Z2Nat.id; lia. }
  unfold sample_ok in Hok. fold v in Hok.
  repeat (apply andb_prop in Hok; destruct Hok as [Hok ?]).
  repeat match goal with
         | H : Bool.eqb _ _ = true |- _ => apply Bool.eqb_prop in H
         end.
  apply negb_true_iff in Hok. auto.
Qed.

Lemma of_Z_sample (raw : Z) :
  0 <= raw < 65536 -> PyFloat.of_Z raw = Return (PyFloat.round_Z raw).
Proof.
  intros Hr. unfold PyFloat.of_Z.
  destruct (sample_facts raw Hr) as [Hfin _]. rewrite Hfin. reflexivity.
Qed.

Lemma of_Z_1024 : PyFloat.of_Z 1024 = Return 1024%float.
Proof. vm_compute. reflexivity. Qed.

(** Two raw bytes decode to the voltage of their big-endian sample. *)
Lemma decode_voltage_bytes (b0 b1 : byte) :
  decode_voltage (VBytes [b0; b1]) = Return (sample_voltage (sample_raw b0 b1)).
Proof.
  unfold decode_voltage.
  cbn [py_getitem nth_error obind py_lshift int_add mul_float].
  fold (byte_value b0). fold (byte_value b1). fold (sample_raw b0 b1).
  rewrite (of_Z_sample _ (sample_raw_range b0 b1)).
  cbn [obind float_truediv]. change (1024 =? 0) with false. cbv iota.
  rewrite of_Z_1024. reflexivity.
Qed.

(** Reading [n] bytes when the port delivers [data]. *)
Lemma response_script (n : nat) (binary : bool) (s : session)
      (data : list byte) (rest : list (list byte)) :
  rx s = data :: rest ->
  response n binary s =
    (Return (if binary then VBytes (firstn n data)
             else VStr (string_of_list_byte (firstn n data))),
     emit (EvRead n (firstn n data)) (set_rx rest s)).
Proof.
  intros Hrx. unfold response. rewrite Hrx. reflexivity.
Qed.

(** C6. The single-shot ADC read: for every 2-byte response (b0, b1) of
    the device, [adc] sends opcode 0x14, waits [minDelay], reads 2 bytes
    once, and returns the float ((b0 << 8) + b1) * 6.6 / 1024; the
    retry counter is not touched. *)
Theorem adc_single_read (s : session) (b0 b1 : byte) (rest : list (list byte)) :
  rx s = [b0; b1] :: rest ->
  adc s =
    (Return (VFloat (PyFloat.round_Z (Z.shiftl (byte_value b0) 8 + byte_value b1)
                     * 6.6 / 1024)%float),
     mkSession (mode s) (minDelay s) (attempts s) (retry_limit s) rest
       (log s ++ [EvWrite x14; EvTimeout (minDelay s); EvRead 2 [b0; b1]])).
Proof.
  intros Hrx. unfold adc, bind.
  change 0x14 with (byte_value x14). rewrite write_literal.
  unfold attr, timeout.
  rewrite (response_script 2 true _ [b0; b1] rest) by exact Hrx.
  cbn [firstn]. unfold lift. rewrite decode_voltage_bytes.
  unfold ret, emit, set_rx. cbn [mode minDelay attempts retry_limit rx log].
  rewrite <- !app_assoc. reflexivity.
Qed.

Lemma adc_single_read_witness :
  adc (demo_session [[x01; xf4]]) =
    (Return (VFloat 3.22265625%float),
     mkSession "bb" 0.01%float 0 15 []
       [EvWrite x14; EvTimeout 0.01%float; EvRead 2 [x01; xf4]]).
Proof.
  exact (adc_single_read (demo_session [[x01; xf4]]) x01 xf4 [] eq_refl).
Defined.

(** ** The retry chain of [get_next_adc_voltage] *)

(** The body calls [self] only through [recurse], on a session one
    attempt further and still within the limit. *)
Lemma get_next_adc_voltage_body_ext (f g : M value) (s : session) :
  (forall s', retry_limit s' = retry_limit s ->
              attempts s' = S (attempts s) ->
              (attempts s < retry_limit s)%nat ->
              f s' = g s') ->
  get_next_adc_voltage_body f s = get_next_adc_voltage_body g s.
Proof.
  intros Hfg. unfold get_next_adc_voltage_body, bind, response, lift.
  destruct (decode_voltage _) as [v | e |]; try reflexivity.
  destruct (PyFloat.ltb_Z v 10); [reflexivity |].
  unfold flushInput, recurse.
  cbn [emit set_rx set_attempts attempts retry_limit mode minDelay rx log].
  destruct (Nat.ltb_spec (attempts s) (retry_limit s)) as [Hlt | Hge];
    [| reflexivity].
  apply Hfg; [reflexivity | reflexivity | exact Hlt].
Qed.

Lemma get_next_adc_voltage_fuel_enough (fuel1 : nat) :
  forall (fuel2 : nat) (s : session),
    (retry_limit s - attempts s < fuel1)%nat ->
    (retry_limit s - attempts s < fuel2)%nat ->
    get_next_adc_voltage_fuel fuel1 s = get_next_adc_voltage_fuel fuel2 s.
Proof.
  induction fuel1 as [| k IH]; intros fuel2 s H1 H2; [lia |].
  destruct fuel2 as [| k2]; [lia |].
  cbn [get_next_adc_voltage_fuel].
  apply get_next_adc_voltage_body_ext.
  intros s' Hl Ha Hlt. apply IH; lia.
Qed.

(** The method satisfies the equation its source text reads as. *)
Lemma get_next_adc_voltage_unfold (s : session) :
  get_next_adc_voltage s = get_next_adc_voltage_body get_next_adc_voltage s.
Proof.
  unfold get_next_adc_voltage at 1. cbn [get_next_adc_voltage_fuel].
  apply get_next_adc_voltage_body_ext.
  intros s' Hl Ha Hlt. unfold get_next_adc_voltage.
  apply get_next_adc_voltage_fuel_enough; lia.
Qed.

(** The fuel never runs out: a call ends with a value or an exception. *)
Lemma get_next_adc_voltage_fuel_total (fuel : nat) :
  forall s : session,
    (retry_limit s - attempts s < fuel)%nat ->
    fst (get_next_adc_voltage_fuel fuel s) <> OutOfFuel.
Proof.
  induction fuel as [| k IH]; intros s Hk; [lia |].
  cbn [get_next_adc_voltage_fuel].
  unfold get_next_adc_voltage_body, bind, response, lift.
  destruct (decode_voltage _) as [v | e |] eqn:Hd.
  - destruct (PyFloat.ltb_Z v 10); [discriminate |].
    unfold flushInput, recurse.
    cbn [emit set_rx set_attempts attempts retry_limit mode minDelay rx log].
    destruct (Nat.ltb_spec (attempts s) (retry_limit s)) as [Hlt | Hge];
      [| discriminate].
    apply IH. simpl. lia.
  - discriminate.
  - exfalso. revert Hd. unfold decode_voltage, py_getitem.
    destruct (nth_error _ 0); [| discriminate].
    cbn [obind py_lshift].
    destruct (nth_error _ 1); [| discriminate].
    cbn [obind int_add mul_float]. unfold PyFloat.of_Z.
    destruct (is_infinity _); [discriminate |].
    cbn [obind float_truediv]. change (1024 =? 0) with false. cbv iota.
    rewrite of_Z_1024. discriminate.
Qed.

Lemma get_next_adc_voltage_total (s : session) :
  fst (get_next_adc_voltage s) <> OutOfFuel.
Proof.
  apply get_next_adc_voltage_fuel_total. lia.
Qed.

(** C7. [get_next_adc_voltage] on a 2-byte sample: when the decoded
    voltage is strictly below 10.0 the call ends the retry chain
    ([recurse_end] resets the counter) and returns that voltage, having
    read nothing beyond the two sample bytes; when it is at least 10.0
    the call reads exactly one more byte, flushes the input and
    re-invokes itself through the Retry Helper's [recurse]. *)
Theorem get_next_adc_voltage_threshold
        (s : session) (b0 b1 : byte) (rest : list (list byte)) :
  rx s = [b0; b1] :: rest ->
  let v := sample_voltage (sample_raw b0 b1) in
  ((v <? 10)%float = true ->
   get_next_adc_voltage s =
     (Return (VFloat v),
      mkSession (mode s) (minDelay s) 0 (retry_limit s) rest
        (log s ++ [EvRead 2 [b0; b1]])))
  /\
  ((10 <=? v)%float = true ->
   get_next_adc_voltage s =
     recurse get_next_adc_voltage
       (mkSession (mode s) (minDelay s) (attempts s) (retry_limit s) (tl rest)
          (log s ++ [EvRead 2 [b0; b1]; EvRead 1 (firstn 1 (hd [] rest));
                     EvFlushInput]))).
Proof.
  intros Hrx v.
  destruct (sample_facts _ (sample_raw_range b0 b1)) as (_ & Hlt & Hge & _).
  fold v in Hlt, Hge.
  assert (Hstep : forall self,
    get_next_adc_voltage_body self s =
      if (v <? 10)%float
      then (Return (VFloat v),
            mkSession (mode s) (minDelay s) 0 (retry_limit s) rest
              (log s ++ [EvRead 2 [b0; b1]]))
      else recurse self
             (mkSession (mode s) (minDelay s) (attempts s) (retry_limit s)
                (tl rest)
                (log s ++ [EvRead 2 [b0; b1]; EvRead 1 (firstn 1 (hd [] rest));
                           EvFlushInput]))).
  { intros self. unfold get_next_adc_voltage_body, bind.
    rewrite (response_script 2 true s [b0; b1] rest Hrx).
    cbn [firstn]. unfold lift. rewrite decode_voltage_bytes.
    fold v. rewrite Hlt.
    destruct (v <? 10)%float.
    - reflexivity.
    - unfold response, flushInput, emit, set_rx.
      cbn [mode minDelay attempts retry_limit rx log].
      rewrite <- !app_assoc. reflexivity. }
  rewrite get_next_adc_voltage_unfold, Hstep.
  split; intros Hv.
  - rewrite Hv. reflexivity.
  - rewrite Hge in Hv. apply negb_true_iff in Hv. rewrite Hv. reflexivity.
Qed.

Lemma get_next_adc_voltage_threshold_witness :
  get_next_adc_voltage (demo_session [[x01; xf4]; [x00]]) =
    (Return (VFloat 3.22265625%float),
     mkSession "bb" 0.01%float 0 15 [[x00]] [EvRead 2 [x01; xf4]])
  /\
  get_next_adc_voltage (demo_session [[xff; xf4]; [x00]; [x00; x10]]) =
    recurse get_next_adc_voltage
      (mkSession "bb" 0.01%float 0 15 [[x00; x10]]
         [EvRead 2 [xff; xf4]; EvRead 1 [x00]; EvFlushInput]).
Proof.
  split.
  - exact (proj1 (get_next_adc_voltage_threshold
                    (demo_session [[x01; xf4]; [x00]]) x01 xf4 [[x00]] eq_refl)
                 eq_refl).
  - exact (proj2 (get_next_adc_voltage_threshold
                    (demo_session [[xff; xf4]; [x00]; [x00; x10]])
                    xff xf4 [[x00]; [x00; x10]] eq_refl)
                 eq_refl).
Defined.

(** ** Self-test *)

(** C8. [selftest(complete)] sends 0x11 when [complete] is true and 0x10
    otherwise, waits [minDelay * 50], reads one byte (the error count),
    sends 0xFF and reads one more byte; it raises [ProtocolError] when
    that last byte is not 0x01 and otherwise returns the error count, an
    integer between 0 and 255. *)
Theorem selftest_protocol
        (complete : bool) (s : session) (e a : byte) (rest : list (list byte)) :
  rx s = [e] :: [a] :: rest ->
  selftest complete s =
    (if Byte.eqb a x01 then Return (VInt (byte_value e))
     else Raise (ProtocolError "Self test did not return to bitbang mode"),
     mkSession (mode s) (minDelay s) (attempts s) (retry_limit s) rest
       (log s ++ [EvWrite (if complete then x11 else x10);
                  EvTimeout (minDelay s * 50)%float;
                  EvRead 1 [e]; EvWrite xff; EvRead 1 [a]]))
  /\ 0 <= byte_value e <= 255.
Proof.
  intros Hrx. split; [| apply byte_value_range].
  unfold selftest, bind.
  assert (Hop : (if complete then write 0x11 else write 0x10) s =
                (Return tt, emit (EvWrite (if complete then x11 else x10)) s)).
  { destruct complete.
    - change 0x11 with (byte_value x11). apply write_literal.
    - change 0x10 with (byte_value x10). apply write_literal. }
  rewrite Hop. unfold attr, timeout.
  rewrite (response_script 1 false _ [e] ([a] :: rest)) by exact Hrx.
  change 0xff with (byte_value xff). rewrite write_literal.
  rewrite (response_script 1 false _ [a] rest) by reflexivity.
  cbn [firstn]. rewrite decoded_ne_x01.
  unfold emit, set_rx. cbn [mode minDelay attempts retry_limit rx log].
  rewrite <- !app_assoc. cbn [app].
  destruct (Byte.eqb a x01); cbn [negb].
  - unfold lift. rewrite ord_decoded. reflexivity.
  - reflexivity.
Qed.

Lemma selftest_protocol_witness :
  selftest false (demo_session [[x03]; [x02]]) =
    (Raise (ProtocolError "Self test did not return to bitbang mode"),
     mkSession "bb" 0.01%float 0 15 []
       [EvWrite x10; EvTimeout (0.01 * 50)%float; EvRead 1 [x03];
        EvWrite xff; EvRead 1 [x02]])
  /\ 0 <= byte_value x03 <= 255.
Proof.
  exact (selftest_protocol false (demo_session [[x03]; [x02]]) x03 x02 []
           eq_refl).
Defined.

(** ** Leaving ADC streaming *)

Lemma skipn_tl {A} (n : nat) (l : list A) : skipn n (tl l) = skipn (S n) l.
Proof. destruct l as [| x r]; [destruct n |]; reflexivity. Qed.

Lemma nth_tl {A} (j : nat) (l : list A) (d : A) :
  nth j (tl l) d = nth (S j) l d.
Proof. destruct l as [| x r]; [destruct j |]; reflexivity. Qed.

Lemma nth_0_hd {A} (l : list A) (d : A) : nth 0 l d = hd d l.
Proof. destruct l; reflexivity. Qed.

(** The loop makes at most [k] probes; the read of probe [j] is what
    entry [j] of the script delivers for a 1-byte read (nothing, once
    the script is exhausted); every probe but the last gets an empty
    read, and the loop stops short of [k] only on a non-empty read. *)
Lemma probe_loop_spec (k : nat) :
  forall s : session,
  exists ds : list (list byte),
    (List.length ds <= k)%nat
    /\ (0 < k -> 1 <= List.length ds)%nat
    /\ (forall j : nat, (j < List.length ds)%nat ->
          nth j ds [] = firstn 1 (nth j (rx s) []))
    /\ Forall (fun d => d = []) (removelast ds)
    /\ ((List.length ds < k)%nat -> last ds [] <> [])
    /\ probe_loop k s =
         (Return tt,
          mkSession (mode s) (minDelay s) (attempts s) (retry_limit s)
            (skipn (List.length ds) (rx s))
            (log s ++ List.concat (map probe ds))).
Proof.
  induction k as [| k IH]; intros s.
  - exists []. cbn [List.length map List.concat probe_loop skipn].
    split; [lia |]. split; [lia |]. split; [intros j Hj; lia |].
    split; [constructor |]. split; [lia |].
    rewrite app_nil_r. destruct s; reflexivity.
  - cbn [probe_loop]. unfold bind.
    change 0x00 with (byte_value x00). rewrite write_literal.
    unfold response.
    cbn [emit set_rx mode minDelay attempts retry_limit rx log].
    destruct (firstn 1 (hd [] (rx s))) as [| b d'] eqn:Hd; cbn [truthy].
    + match goal with
      | |- context [probe_loop k ?s1] =>
          destruct (IH s1) as (ds & Hle & Hpos & Htie & Hall & Hlast & Hrun);
          change (rx s1) with (tl (rx s)) in Htie
      end.
      exists ([] :: ds). cbn [List.length].
      split; [lia |]. split; [lia |].
      split.
      { intros [| j] Hj.
        - rewrite (nth_0_hd (rx s)), Hd. reflexivity.
        - change (nth (S j) ([] :: ds) []) with (nth j ds []).
          rewrite (Htie j) by lia. rewrite nth_tl. reflexivity. }
      split.
      { destruct ds as [| d0 ds']; [constructor |].
        change (removelast ([] :: d0 :: ds')) with ([] :: removelast (d0 :: ds')).
        constructor; [reflexivity | exact Hall]. }
      split.
      { intros Hlt. destruct ds as [| d0 ds'].
        - cbn [List.length] in *. lia.
        - change (last ([] :: d0 :: ds') []) with (last (d0 :: ds') []).
          apply Hlast. lia. }
      rewrite Hrun, <- skipn_tl. unfold emit, set_rx, probe.
      cbn [mode minDelay attempts retry_limit rx log map List.concat].
      rewrite <- !app_assoc. reflexivity.
    + exists [b :: d']. cbn [List.length removelast last map List.concat probe skipn app].
      split; [lia |]. split; [lia |].
      split.
      { intros [| j] Hj; [| cbn [List.length] in Hj; lia].
        rewrite (nth_0_hd (rx s)), Hd. reflexivity. }
      split; [constructor |].
      split; [intros _; discriminate |].
      unfold ret, emit, set_rx.
      cbn [mode minDelay attempts retry_limit rx log].
      rewrite <- !app_assoc. destruct (rx s); reflexivity.
Qed.

(** C9. [stop_getting_adc_voltages] outside adc mode fails with the mode
    error and the session, its log included, is as before: nothing was
    written.  In adc mode it flushes the input and sends between one and
    five probes 0x00, each followed by a 1-byte read; the read of probe
    [j] is what entry [j] of the port's script delivers for one byte
    (nothing once the script is exhausted), every probe but the last
    was answered by an empty read, and fewer than five probes are made
    only when the last one was answered by a non-empty read.  It then
    flushes again, re-enters bitbang mode and returns 1, with the
    entries read taken off the script. *)
Theorem stop_getting_adc_voltages_protocol (s : session) :
  (mode s <> "adc"%string ->
   stop_getting_adc_voltages s = (Raise (ModeError "adc"), s))
  /\
  (mode s = "adc"%string ->
   exists ds : list (list byte),
     (1 <= List.length ds <= 5)%nat
     /\ (forall j : nat, (j < List.length ds)%nat ->
           nth j ds [] = firstn 1 (nth j (rx s) []))
     /\ Forall (fun d => d = []) (removelast ds)
     /\ ((List.length ds < 5)%nat -> last ds [] <> [])
     /\ stop_getting_adc_voltages s =
          (Return (VInt 1),
           mkSession bitbang_mode (minDelay s) (attempts s) (retry_limit s)
             (skipn (List.length ds) (rx s))
             (log s ++ [EvFlushInput] ++ List.concat (map probe ds)
                    ++ [EvFlushInput; EvEnterBB]))).
Proof.
  split; intros Hmode.
  - unfold stop_getting_adc_voltages, bind, check_mode.
    destruct (String.eqb_spec (mode s) "adc"); [contradiction | reflexivity].
  - unfold stop_getting_adc_voltages, bind, check_mode.
    rewrite Hmode. cbn [String.eqb Ascii.eqb Bool.eqb]. unfold flushInput at 1.
    destruct (probe_loop_spec 5 (emit EvFlushInput s))
      as (ds & Hle & Hpos & Htie & Hall & Hlast & Hrun).
    exists ds. split; [lia |]. split; [exact Htie |].
    split; [exact Hall |]. split; [exact Hlast |].
    rewrite Hrun. unfold flushInput, enter_bb, ret, emit, set_mode.
    cbn [mode minDelay attempts retry_limit rx log].
    rewrite <- !app_assoc. reflexivity.
Qed.

Lemma stop_getting_adc_voltages_protocol_witness :
  stop_getting_adc_voltages (demo_session [[x01]]) =
    (Raise (ModeError "adc"), demo_session [[x01]])
  /\
  exists ds : list (list byte),
    (1 <= List.length ds <= 5)%nat
    /\ (forall j : nat, (j < List.length ds)%nat ->
          nth j ds [] = firstn 1 (nth j [[]; []; [x05]; [x01]] []))
    /\ Forall (fun d => d = []) (removelast ds)
    /\ ((List.length ds < 5)%nat -> last ds [] <> [])
    /\ stop_getting_adc_voltages (adc_session [[]; []; [x05]; [x01]]) =
         (Return (VInt 1),
          mkSession bitbang_mode 0.01%float 0 15
            (skipn (List.length ds) [[]; []; [x05]; [x01]])
            ([] ++ [EvFlushInput] ++ List.concat (map probe ds)
                ++ [EvFlushInput; EvEnterBB])).
Proof.
  split.
  - apply (proj1 (stop_getting_adc_voltages_protocol (demo_session [[x01]]))).
    discriminate.
  - exact (proj2 (stop_getting_adc_voltages_protocol
                    (adc_session [[]; []; [x05]; [x01]])) eq_refl).
Defined.

(** The reads fix the run: on the script of the example the probes are
    three, two unanswered and one answered by 0x05, and the entry 0x01
    stays unread. *)
Example stop_getting_adc_voltages_example :
  stop_getting_adc_voltages (adc_session [[]; []; [x05]; [x01]]) =
    (Return (VInt 1),
     mkSession bitbang_mode 0.01%float 0 15 [[x01]]
       [EvFlushInput; EvWrite x00; EvRead 1 []; EvWrite x00; EvRead 1 [];
        EvWrite x00; EvRead 1 [x05]; EvFlushInput; EvEnterBB]).
Proof. reflexivity. Qed.

(** ** PWM setup and teardown *)

(** Resolve the next [write] of the goal, given that its argument is a
    byte; [b] names the byte on the wire and [Hb] its value. *)
Ltac step_write b Hb :=
  match goal with
  | |- context [write ?v ?st] =>
      let Hw := fresh "Hw" in
      destruct (write_byte v st) as (b & Hb & Hw);
      [ first [ assumption | apply land_byte | lia ] | rewrite Hw; clear Hw ]
  end.

(** A run of [setup_PWM]: six bytes go out, the wait is [minDelay * 10],
    one byte is asked for, and the comparison of that [bytes] object
    with the [str] literal ['\x01'] fails whatever the byte is. *)
Lemma setup_PWM_run (prescaler dutycycle period : Z) (s : session) :
  0 <= prescaler < 256 ->
  exists bs : list byte,
    map byte_value bs =
      [0x12; prescaler;
       Z.land (Z.shiftr dutycycle 8) 0xFF; Z.land dutycycle 0xFF;
       Z.land (Z.shiftr period 8) 0xFF; Z.land period 0xFF]
    /\ setup_PWM prescaler dutycycle period s =
         (Raise (ValueError "Could not setup PWM mode"),
          mkSession (mode s) (minDelay s) (attempts s) (retry_limit s)
            (tl (rx s))
            (log s ++ map EvWrite bs
                   ++ [EvTimeout (minDelay s * 10)%float;
                       EvRead 1 (firstn 1 (hd [] (rx s)))])).
Proof.
  intros Hp. unfold setup_PWM, bind.
  change 0x12 with (byte_value x12). rewrite write_literal.
  step_write bp Hbp. step_write bdh Hbdh. step_write bdl Hbdl.
  step_write bph Hbph. step_write bpl Hbpl.
  exists [x12; bp; bdh; bdl; bph; bpl]. split.
  - cbn [map]. rewrite Hbp, Hbdh, Hbdl, Hbph, Hbpl. reflexivity.
  - destruct s as [m d a r x l]. norm_session.
    unfold attr, timeout. norm_session.
    unfold response. norm_session.
    rewrite bytes_ne_str. unfold raise.
    cbn [map]. rewrite <- !app_assoc. reflexivity.
Qed.

(** C4. [setup_PWM] transmits exactly the six bytes 0x12, prescaler,
    duty high, duty low, period high, period low, in that order, before
    it waits and reads its one response byte.  This holds for every
    prescaler byte and all duty and period values, the 16-bit ones
    included. *)
Theorem setup_PWM_payload (prescaler dutycycle period : Z) (s : session) :
  0 <= prescaler < 256 ->
  exists bs : list byte,
    map byte_value bs =
      [0x12; prescaler;
       Z.land (Z.shiftr dutycycle 8) 0xFF; Z.land dutycycle 0xFF;
       Z.land (Z.shiftr period 8) 0xFF; Z.land period 0xFF]
    /\ log (snd (setup_PWM prescaler dutycycle period s)) =
         log s ++ map EvWrite bs
               ++ [EvTimeout (minDelay s * 10)%float;
                   EvRead 1 (firstn 1 (hd [] (rx s)))].
Proof.
  intros Hp.
  destruct (setup_PWM_run prescaler dutycycle period s Hp) as (bs & Hbs & Hrun).
  exists bs. split; [exact Hbs |]. rewrite Hrun. reflexivity.
Qed.

Lemma setup_PWM_payload_witness :
  exists bs : list byte,
    map byte_value bs = [0x12; 0x00; 0x01; 0xF4; 0x03; 0xE8]
    /\ log (snd (setup_PWM 0 500 1000 (demo_session [[x01]]))) =
         [] ++ map EvWrite bs
            ++ [EvTimeout (0.01 * 10)%float; EvRead 1 [x01]].
Proof.
  apply (setup_PWM_payload 0 500 1000 (demo_session [[x01]])). lia.
Defined.

(** The payload of the example, byte for byte. *)
Example setup_PWM_example :
  log (snd (setup_PWM 0 500 1000 (demo_session [[x01]]))) =
    [EvWrite x12; EvWrite x00; EvWrite x01; EvWrite xf4; EvWrite x03;
     EvWrite xe8; EvTimeout (0.01 * 10)%float; EvRead 1 [x01]].
Proof. reflexivity. Qed.

(** C3, refuted as stated: when the device answers 0x00 to the payload
    of (0, 500, 1000), [setup_PWM] raises [ValueError]; it does not
    return a result that tells the caller of the failure. *)
Lemma setup_PWM_nack_is_raised :
  fst (setup_PWM 0 500 1000 (demo_session [[x00]])) =
    Raise (ValueError "Could not setup PWM mode")
  /\ ~ (exists v : value,
          fst (setup_PWM 0 500 1000 (demo_session [[x00]])) = Return v).
Proof.
  split; [reflexivity |].
  intros [v Hv]. discriminate Hv.
Qed.

(** C3, amended. [setup_PWM], after transmitting its six-byte payload,
    waits [minDelay * 10], reads exactly one response byte, and raises
    [ValueError] ("Could not setup PWM mode") when that byte is not
    0x01. *)
Theorem setup_PWM_nack
        (prescaler dutycycle period : Z) (s : session)
        (b : byte) (rest : list (list byte)) :
  0 <= prescaler < 256 ->
  rx s = [b] :: rest ->
  b <> x01 ->
  exists bs : list byte,
    map byte_value bs =
      [0x12; prescaler;
       Z.land (Z.shiftr dutycycle 8) 0xFF; Z.land dutycycle 0xFF;
       Z.land (Z.shiftr period 8) 0xFF; Z.land period 0xFF]
    /\ setup_PWM prescaler dutycycle period s =
         (Raise (ValueError "Could not setup PWM mode"),
          mkSession (mode s) (minDelay s) (attempts s) (retry_limit s) rest
            (log s ++ map EvWrite bs
                   ++ [EvTimeout (minDelay s * 10)%float; EvRead 1 [b]])).
Proof.
  intros Hp Hrx _.
  destruct (setup_PWM_run prescaler dutycycle period s Hp) as (bs & Hbs & Hrun).
  exists bs. split; [exact Hbs |].
  rewrite Hrun, Hrx. reflexivity.
Qed.

Lemma setup_PWM_nack_witness :
  exists bs : list byte,
    map byte_value bs = [0x12; 0x00; 0x01; 0xF4; 0x03; 0xE8]
    /\ setup_PWM 0 500 1000 (demo_session [[x00]]) =
         (Raise (ValueError "Could not setup PWM mode"),
          mkSession "bb" 0.01%float 0 15 []
            ([] ++ map EvWrite bs
                ++ [EvTimeout (0.01 * 10)%float; EvRead 1 [x00]])).
Proof.
  apply (setup_PWM_nack 0 500 1000 (demo_session [[x00]]) x00 []).
  - lia.
  - reflexivity.
  - discriminate.
Defined.

(** C10. What [disable_PWM] does, whatever the device answers: it sends
    0x13, waits [minDelay * 10], reads one byte once, and raises
    [ValueError] ("Could not disable PWM mode").  The answer 0x01 is no
    exception: the [bytes] object read is compared with a [str]. *)
Theorem disable_PWM_always_raises (s : session) :
  disable_PWM s =
    (Raise (ValueError "Could not disable PWM mode"),
     mkSession (mode s) (minDelay s) (attempts s) (retry_limit s) (tl (rx s))
       (log s ++ [EvWrite x13; EvTimeout (minDelay s * 10)%float;
                  EvRead 1 (firstn 1 (hd [] (rx s)))])).
Proof.
  unfold disable_PWM, bind.
  change 0x13 with (byte_value x13). rewrite write_literal.
  destruct s as [m d a r x l]. norm_session.
  unfold attr, timeout. norm_session.
  unfold response. norm_session.
  rewrite bytes_ne_str. unfold raise. rewrite <- !app_assoc. reflexivity.
Qed.

(** The device acknowledges with 0x01 and the call fails all the same. *)
Example disable_PWM_acknowledged :
  disable_PWM (demo_session [[x01]]) =
    (Raise (ValueError "Could not disable PWM mode"),
     mkSession "bb" 0.01%float 0 15 []
       [EvWrite x13; EvTimeout (0.01 * 10)%float; EvRead 1 [x01]]).
Proof. reflexivity. Qed.

(** ** The frequency search *)

(** [DutyCycle] is bound neither by the module nor by the builtins. *)
Lemma load_DutyCycle :
  load_global module_namespace "DutyCycle" = Raise (NameError "DutyCycle").
Proof. reflexivity. Qed.

(** The first statement of the body raises, whatever the arguments, the
    session and the method handed to [recurse]. *)
Lemma set_pwm_frequency_body_name_error
      (self : number -> binding -> M value)
      (frequency : number) (dutycycle : binding) (s : session) :
  set_pwm_frequency_body module_namespace self frequency dutycycle s =
    (Raise (NameError "DutyCycle"), s).
Proof.
  unfold set_pwm_frequency_body, bind, lift.
  rewrite load_DutyCycle. reflexivity.
Qed.

(** C2. Every call of [set_pwm_frequency] ends in the [NameError] for
    [DutyCycle], with the session, its log included, as it was: no byte
    was transmitted, [setup_PWM] was not reached, and no call returns a
    value. *)
Theorem set_pwm_frequency_name_error
        (frequency dutycycle : number) (s : session) :
  set_pwm_frequency frequency dutycycle s = (Raise (NameError "DutyCycle"), s)
  /\ log (snd (set_pwm_frequency frequency dutycycle s)) = log s
  /\ forall v : value,
       fst (set_pwm_frequency frequency dutycycle s) <> Return v.
Proof.
  assert (H : set_pwm_frequency frequency dutycycle s =
              (Raise (NameError "DutyCycle"), s)).
  { unfold set_pwm_frequency, set_pwm_frequency_in.
    cbn [set_pwm_frequency_fuel]. apply set_pwm_frequency_body_name_error. }
  rewrite H. repeat split. intros v Hv. discriminate Hv.
Qed.

(** C1. At 1000 Hz and duty 0.5 the search is never made: the call
    raises [NameError] on its first statement, in every session. *)
Theorem set_pwm_frequency_1kHz_half (s : session) :
  set_pwm_frequency (NInt 1000) (NFloat 0.5) s =
    (Raise (NameError "DutyCycle"), s).
Proof.
  unfold set_pwm_frequency, set_pwm_frequency_in.
  cbn [set_pwm_frequency_fuel]. apply set_pwm_frequency_body_name_error.
Qed.

(** C5. A duty cycle of 2, outside [0, 1], is not rejected with the
    [ValueError] of the precondition: the check itself raises
    [NameError].  So does the check of a duty cycle inside [0, 1]. *)
Theorem set_pwm_frequency_duty_check (s : session) :
  set_pwm_frequency (NInt 1000) (NFloat 2) s =
    (Raise (NameError "DutyCycle"), s)
  /\ set_pwm_frequency (NInt 1000) (NFloat 0.5) s =
       (Raise (NameError "DutyCycle"), s).
Proof.
  split; unfold set_pwm_frequency, set_pwm_frequency_in;
    cbn [set_pwm_frequency_fuel]; apply set_pwm_frequency_body_name_error.
Qed.

(** ** The search with [DutyCycle] bound

    What the rest of the body does can be seen by running it in the
    module namespace extended with a binding for [DutyCycle]. *)

(** At 1000 Hz the loop stops at its first candidate, [n = 0], with the
    period 11999 and the duty register 5999; what it keeps for
    [setup_PWM] is the prescaler value 1, not the index 0. *)
Example prescaler_loop_1kHz :
  prescaler_loop (with_DutyCycle 0.5) (1.0 / 1000)%float (2.0 / 24e6)%float
    [0; 1; 2; 3] = Return (1, 5999, 11999).
Proof. reflexivity. Qed.

(** At 100 Hz the first candidate gives a period of 119999, too large,
    and the loop stops at [n = 1] keeping the prescaler value 8. *)
Example prescaler_loop_100Hz :
  prescaler_loop (with_DutyCycle 0.5) (1.0 / 100)%float (2.0 / 24e6)%float
    [0; 1; 2; 3] = Return (8, 7499, 14999).
Proof. reflexivity. Qed.

(** At 0.1 Hz no candidate fits and the [else] clause raises. *)
Example prescaler_loop_too_slow :
  prescaler_loop (with_DutyCycle 0.5) (1.0 / 0.1)%float (2.0 / 24e6)%float
    [0; 1; 2; 3] = Raise (ValueError "frequency requested is invalid").
Proof. reflexivity. Qed.

(** The byte that follows the opcode is that prescaler value: 0x08 at
    100 Hz, where the index is 1. *)
Example set_pwm_frequency_in_100Hz :
  log (snd (set_pwm_frequency_in (with_DutyCycle 0.5) (NInt 100) (NFloat 0.5)
              (demo_session [[x01]]))) =
    [EvWrite x12; EvWrite x08; EvWrite x1d; EvWrite x4b; EvWrite x3a;
     EvWrite x97; EvTimeout (0.01 * 10)%float; EvRead 1 [x01]].
Proof. reflexivity. Qed.

(** The precondition tests [DutyCycle > 1] only: a negative duty cycle
    passes it and a payload goes out. *)
Example set_pwm_frequency_in_negative_duty :
  log (snd (set_pwm_frequency_in (with_DutyCycle (-0.5)) (NInt 1000)
              (NFloat (-0.5)) (demo_session [[x01]]))) =
    [EvWrite x12; EvWrite x01; EvWrite xe8; EvWrite x91; EvWrite x2e;
     EvWrite xdf; EvTimeout (0.01 * 10)%float; EvRead 1 [x01]].
Proof. reflexivity. Qed.

(** A duty cycle above 1 is rejected once the name resolves. *)
Example set_pwm_frequency_in_duty_2 :
  set_pwm_frequency_in (with_DutyCycle 2) (NInt 1000) (NFloat 2)
    (demo_session [[x01]]) =
    (Raise (ValueError "Duty cycle should be between 0 and 1"),
     demo_session [[x01]]).
Proof. reflexivity. Qed.

(** * Further properties of the methods *)

(** ** The streaming read in terms of the raw sample *)

(** One run of the body on a 2-byte sample, the test [voltage < 10]
    read as a test on the raw sample: 1551 is the last sample whose
    voltage is below 10. *)
Lemma get_next_adc_voltage_body_step
      (self : M value) (s : session) (b0 b1 : byte) (rest : list (list byte)) :
  rx s = [b0; b1] :: rest ->
  get_next_adc_voltage_body self s =
    if sample_raw b0 b1 <=? 1551
    then (Return (VFloat (sample_voltage (sample_raw b0 b1))),
          mkSession (mode s) (minDelay s) 0 (retry_limit s) rest
            (log s ++ [EvRead 2 [b0; b1]]))
    else recurse self
           (mkSession (mode s) (minDelay s) (attempts s) (retry_limit s)
              (tl rest)
              (log s ++ [EvRead 2 [b0; b1]; EvRead 1 (firstn 1 (hd [] rest));
                         EvFlushInput])).
Proof.
  intros Hrx.
  destruct (sample_facts _ (sample_raw_range b0 b1)) as (_ & Hlt & _ & Hraw).
  unfold get_next_adc_voltage_body, bind.
  rewrite (response_script 2 true s [b0; b1] rest Hrx).
  cbn [firstn]. unfold lift. rewrite decode_voltage_bytes.
  rewrite Hlt, Hraw.
  destruct (sample_raw b0 b1 <=? 1551).
  - reflexivity.
  - destruct s as [m d a r x l]. cbn [rx] in Hrx. subst x.
    unfold response. norm_session. cbn [hd tl].
    unfold flushInput. norm_session.
    rewrite <- !app_assoc. reflexivity.
Qed.

(** X1. The threshold of [get_next_adc_voltage] on the raw sample: a
    sample up to 1551 (every 10-bit sample among them) is returned at
    once with the counter reset; a sample from 1552 on sends the call
    into the retry through [recurse]. *)
Theorem get_next_adc_voltage_raw_threshold
        (s : session) (b0 b1 : byte) (rest : list (list byte)) :
  rx s = [b0; b1] :: rest ->
  (sample_raw b0 b1 <= 1551 ->
   get_next_adc_voltage s =
     (Return (VFloat (sample_voltage (sample_raw b0 b1))),
      mkSession (mode s) (minDelay s) 0 (retry_limit s) rest
        (log s ++ [EvRead 2 [b0; b1]])))
  /\
  (1552 <= sample_raw b0 b1 ->
   get_next_adc_voltage s =
     recurse get_next_adc_voltage
       (mkSession (mode s) (minDelay s) (attempts s) (retry_limit s) (tl rest)
          (log s ++ [EvRead 2 [b0; b1]; EvRead 1 (firstn 1 (hd [] rest));
                     EvFlushInput]))).
Proof.
  intros Hrx.
  rewrite get_next_adc_voltage_unfold,
    (get_next_adc_voltage_body_step _ s b0 b1 rest Hrx).
  split; intros Hraw.
  - destruct (Z.leb_spec (sample_raw b0 b1) 1551); [reflexivity | lia].
  - destruct (Z.leb_spec (sample_raw b0 b1) 1551); [lia | reflexivity].
Qed.

Lemma get_next_adc_voltage_raw_threshold_witness :
  get_next_adc_voltage (demo_session [[x06; x0f]; [x00]]) =
    (Return (VFloat (sample_voltage 1551)),
     mkSession "bb" 0.01%float 0 15 [[x00]] [EvRead 2 [x06; x0f]])
  /\
  get_next_adc_voltage (demo_session [[x06; x10]; [x00]]) =
    recurse get_next_adc_voltage
      (mkSession "bb" 0.01%float 0 15 []
         [EvRead 2 [x06; x10]; EvRead 1 [x00]; EvFlushInput]).
Proof.
  split.
  - apply (proj1 (get_next_adc_voltage_raw_threshold
                    (demo_session [[x06; x0f]; [x00]]) x06 x0f [[x00]] eq_refl)).
    vm_compute. discriminate.
  - apply (proj2 (get_next_adc_voltage_raw_threshold
                    (demo_session [[x06; x10]; [x00]]) x06 x10 [[x00]] eq_refl)).
    vm_compute. discriminate.
Defined.

(** X2. Resynchronisation after one bad frame: when the first sample is
    1552 or more, the next sample is 1551 or less and the retry limit
    is not yet reached, the call reads the bad sample, one padding
    byte, flushes, reads the good sample and returns its voltage with
    the counter reset. *)
Theorem get_next_adc_voltage_resync
        (s : session) (b0 b1 c0 c1 : byte) (pad : list byte)
        (rest : list (list byte)) :
  rx s = [b0; b1] :: pad :: [c0; c1] :: rest ->
  1552 <= sample_raw b0 b1 ->
  sample_raw c0 c1 <= 1551 ->
  (attempts s < retry_limit s)%nat ->
  get_next_adc_voltage s =
    (Return (VFloat (sample_voltage (sample_raw c0 c1))),
     mkSession (mode s) (minDelay s) 0 (retry_limit s) rest
       (log s ++ [EvRead 2 [b0; b1]; EvRead 1 (firstn 1 pad); EvFlushInput;
                  EvRead 2 [c0; c1]])).
Proof.
  intros Hrx Hbad Hgood Hlt.
  rewrite get_next_adc_voltage_unfold,
    (get_next_adc_voltage_body_step _ s b0 b1 _ Hrx).
  destruct (Z.leb_spec (sample_raw b0 b1) 1551) as [Hle | _]; [lia |].
  unfold recurse. cbn [attempts retry_limit hd tl].
  destruct (Nat.ltb_spec (attempts s) (retry_limit s)) as [_ | Hge]; [| lia].
  norm_session.
  rewrite get_next_adc_voltage_unfold.
  match goal with
  | |- context [get_next_adc_voltage_body _ ?st] =>
      rewrite (get_next_adc_voltage_body_step _ st c0 c1 rest eq_refl)
  end.
  destruct (Z.leb_spec (sample_raw c0 c1) 1551) as [_ | Hgt]; [| lia].
  cbn [mode minDelay attempts retry_limit rx log].
  rewrite <- !app_assoc. reflexivity.
Qed.

Lemma get_next_adc_voltage_resync_witness :
  get_next_adc_voltage (demo_session [[xff; xf4]; [x00]; [x00; x10]]) =
    (Return (VFloat (sample_voltage 16)),
     mkSession "bb" 0.01%float 0 15 []
       [EvRead 2 [xff; xf4]; EvRead 1 [x00]; EvFlushInput;
        EvRead 2 [x00; x10]]).
Proof.
  apply (get_next_adc_voltage_resync
           (demo_session [[xff; xf4]; [x00]; [x00; x10]])
           xff xf4 x00 x10 [x00] [] eq_refl).
  - vm_compute. discriminate.
  - vm_compute. discriminate.
  - simpl. lia.
Defined.

(** ** What the streaming read returns, and how much it reads *)

(** A [bytes] object decodes only when it holds two bytes or more, and
    then to the voltage of the first two. *)
Lemma decode_voltage_Return (l : list byte) (v : float) :
  decode_voltage (VBytes l) = Return v ->
  exists (b0 b1 : byte) (t : list byte),
    l = b0 :: b1 :: t /\ v = sample_voltage (sample_raw b0 b1).
Proof.
  destruct l as [| b0 [| b1 t]]; try discriminate.
  intros Hd. exists b0, b1, t. split; [reflexivity |].
  assert (Hv : decode_voltage (VBytes (b0 :: b1 :: t)) =
               Return (sample_voltage (sample_raw b0 b1))).
  { unfold decode_voltage.
    cbn [py_getitem nth_error obind py_lshift int_add mul_float].
    fold (byte_value b0). fold (byte_value b1). fold (sample_raw b0 b1).
    rewrite (of_Z_sample _ (sample_raw_range b0 b1)).
    cbn [obind float_truediv]. change (1024 =? 0) with false. cbv iota.
    rewrite of_Z_1024. reflexivity. }
  rewrite Hv in Hd. injection Hd as <-. reflexivity.
Qed.

Lemma decode_voltage_short (l : list byte) :
  (List.length l < 2)%nat -> decode_voltage (VBytes l) = Raise IndexError.
Proof.
  destruct l as [| b0 [| b1 t]]; cbn [List.length]; intros Hl;
    [reflexivity | reflexivity | lia].
Qed.

Lemma get_next_adc_voltage_fuel_returns (fuel : nat) :
  forall (s s' : session) (v : value),
    get_next_adc_voltage_fuel fuel s = (Return v, s') ->
    exists raw : Z,
      0 <= raw <= 1551
      /\ v = VFloat (sample_voltage raw)
      /\ (sample_voltage raw <? 10)%float = true
      /\ attempts s' = 0%nat.
Proof.
  induction fuel as [| k IH]; intros s s' v Hrun; [discriminate Hrun |].
  cbn [get_next_adc_voltage_fuel] in Hrun.
  unfold get_next_adc_voltage_body, bind, response, lift in Hrun.
  destruct (decode_voltage _) as [volt | e |] eqn:Hd; try discriminate Hrun.
  apply decode_voltage_Return in Hd. destruct Hd as (b0 & b1 & t & _ & ->).
  pose proof (sample_raw_range b0 b1) as Hrange.
  destruct (sample_facts _ Hrange) as (_ & Hlt & _ & Hraw).
  cbv zeta in Hlt, Hraw. rewrite Hlt in Hrun.
  destruct (sample_voltage (sample_raw b0 b1) <? 10)%float eqn:Hv.
  - unfold recurse_end, ret in Hrun. injection Hrun as <- <-.
    exists (sample_raw b0 b1). symmetry in Hraw.
    apply Z.leb_le in Hraw. repeat split; [lia | exact Hraw | exact Hv].
  - unfold flushInput, recurse in Hrun.
    destruct (_ <? _)%nat; [| discriminate Hrun].
    exact (IH _ _ _ Hrun).
Qed.

(** X3. Whatever the device sends, a value returned by
    [get_next_adc_voltage] is the voltage of a sample between 0 and
    1551, hence a float below 10, and the retry counter is 0 when the
    call returns. *)
Theorem get_next_adc_voltage_returns (s s' : session) (v : value) :
  get_next_adc_voltage s = (Return v, s') ->
  exists raw : Z,
    0 <= raw <= 1551
    /\ v = VFloat (sample_voltage raw)
    /\ (sample_voltage raw <? 10)%float = true
    /\ attempts s' = 0%nat.
Proof.
  unfold get_next_adc_voltage. apply get_next_adc_voltage_fuel_returns.
Qed.

Lemma get_next_adc_voltage_returns_witness :
  exists raw : Z,
    0 <= raw <= 1551
    /\ VFloat (sample_voltage 16) = VFloat (sample_voltage raw)
    /\ (sample_voltage raw <? 10)%float = true
    /\ attempts (mkSession "bb" 0.01%float 0 15 []
                   [EvRead 2 [xff; xf4]; EvRead 1 [x00]; EvFlushInput;
                    EvRead 2 [x00; x10]]) = 0%nat.
Proof.
  apply (get_next_adc_voltage_returns
           (demo_session [[xff; xf4]; [x00]; [x00; x10]])).
  vm_compute. reflexivity.
Defined.

Lemma get_next_adc_voltage_fuel_log (fuel : nat) :
  forall s : session,
    (List.length (log (snd (get_next_adc_voltage_fuel fuel s)))
     <= List.length (log s) + 3 * S (retry_limit s - attempts s))%nat.
Proof.
  induction fuel as [| k IH]; intros s.
  - cbn [get_next_adc_voltage_fuel out_of_fuel snd]. lia.
  - cbn [get_next_adc_voltage_fuel].
    unfold get_next_adc_voltage_body, bind, response, lift.
    destruct (decode_voltage _) as [volt | e |].
    + destruct (PyFloat.ltb_Z volt 10).
      * destruct s as [m d a r x l]. norm_session.
        unfold recurse_end, ret. norm_session.
        cbn [snd log]. rewrite length_app. cbn [List.length]. lia.
      * destruct s as [m d a r x l]. norm_session.
        unfold flushInput, recurse. norm_session.
        destruct (Nat.ltb_spec a r) as [Hlt | Hge].
        -- match goal with
           | |- context [get_next_adc_voltage_fuel k ?st] => specialize (IH st)
           end.
           cbn [log retry_limit attempts] in IH.
           rewrite !length_app in IH. cbn [List.length] in IH. lia.
        -- cbn [snd log]. rewrite !length_app. cbn [List.length]. lia.
    + destruct s as [m d a r x l]. norm_session.
      cbn [snd log]. rewrite length_app. cbn [List.length]. lia.
    + destruct s as [m d a r x l]. norm_session.
      cbn [snd log]. rewrite length_app. cbn [List.length]. lia.
Qed.

(** X4. The retry chain is bounded: one call of [get_next_adc_voltage]
    adds at most three events (a 2-byte read, a 1-byte read, a flush)
    for each attempt the Retry Helper still allows, plus three, whatever
    the device sends. *)
Theorem get_next_adc_voltage_log_bound (s : session) :
  (List.length (log (snd (get_next_adc_voltage s)))
   <= List.length (log s) + 3 * S (retry_limit s - attempts s))%nat.
Proof.
  unfold get_next_adc_voltage. apply get_next_adc_voltage_fuel_log.
Qed.

(** ** Short reads *)

(** X5. [adc] on a read that times out with fewer than 2 bytes: the
    opcode 0x14 has gone out, the read is logged, and indexing the
    short [bytes] object raises [IndexError]. *)
Theorem adc_short_read (s : session) :
  (List.length (hd [] (rx s)) < 2)%nat ->
  adc s =
    (Raise IndexError,
     mkSession (mode s) (minDelay s) (attempts s) (retry_limit s) (tl (rx s))
       (log s ++ [EvWrite x14; EvTimeout (minDelay s);
                  EvRead 2 (hd [] (rx s))])).
Proof.
  intros Hlen. unfold adc, bind.
  change 0x14 with (byte_value x14). rewrite write_literal.
  destruct s as [m d a r x l]. cbn [rx] in Hlen. norm_session.
  unfold attr, timeout. norm_session. unfold response. norm_session.
  rewrite firstn_all2 by lia.
  unfold lift. rewrite (decode_voltage_short _ Hlen).
  rewrite <- !app_assoc. reflexivity.
Qed.

Lemma adc_short_read_witness :
  adc (demo_session [[x01]]) =
    (Raise IndexError,
     mkSession "bb" 0.01%float 0 15 []
       ([] ++ [EvWrite x14; EvTimeout 0.01%float; EvRead 2 [x01]])).
Proof.
  apply (adc_short_read (demo_session [[x01]])). simpl. lia.
Defined.

(** X6. [get_next_adc_voltage] on a read that times out with fewer than
    2 bytes raises [IndexError] after that one read; the retry counter
    keeps its value, the chain is neither ended nor continued. *)
Theorem get_next_adc_voltage_short_read (s : session) :
  (List.length (hd [] (rx s)) < 2)%nat ->
  get_next_adc_voltage s =
    (Raise IndexError,
     mkSession (mode s) (minDelay s) (attempts s) (retry_limit s) (tl (rx s))
       (log s ++ [EvRead 2 (hd [] (rx s))])).
Proof.
  intros Hlen. rewrite get_next_adc_voltage_unfold.
  unfold get_next_adc_voltage_body, bind, response.
  rewrite firstn_all2 by lia.
  unfold lift. rewrite (decode_voltage_short _ Hlen).
  destruct s as [m d a r x l]. norm_session. reflexivity.
Qed.

Lemma get_next_adc_voltage_short_read_witness :
  get_next_adc_voltage (demo_session []) =
    (Raise IndexError,
     mkSession "bb" 0.01%float 0 15 [] ([] ++ [EvRead 2 []])).
Proof.
  apply (get_next_adc_voltage_short_read (demo_session [])). simpl. lia.
Defined.

(** ** Self-test against any device *)

(** X7. [selftest] with no assumption on the device.  The five events
    are always the same: the opcode, the wait, a 1-byte read, the exit
    command 0xFF and a second 1-byte read; the device is told to leave
    self-test even when the call fails.  The acknowledgment is checked
    first: unless the second read delivers the byte 0x01 the call raises
    [ProtocolError]; with a good acknowledgment, an error-count read
    that timed out makes [ord] raise [TypeError]. *)
Theorem selftest_any_device (complete : bool) (s : session) :
  let d1 := firstn 1 (hd [] (rx s)) in
  let d2 := firstn 1 (hd [] (tl (rx s))) in
  selftest complete s =
    (match d2 with
     | [a] =>
         if Byte.eqb a x01 then
           match d1 with
           | [e] => Return (VInt (byte_value e))
           | _ => Raise TypeError
           end
         else Raise (ProtocolError "Self test did not return to bitbang mode")
     | _ => Raise (ProtocolError "Self test did not return to bitbang mode")
     end,
     mkSession (mode s) (minDelay s) (attempts s) (retry_limit s)
       (tl (tl (rx s)))
       (log s ++ [EvWrite (if complete then x11 else x10);
                  EvTimeout (minDelay s * 50)%float;
                  EvRead 1 d1; EvWrite xff; EvRead 1 d2])).
Proof.
  intros d1 d2. unfold selftest, bind.
  assert (Hop : (if complete then write 0x11 else write 0x10) s =
                (Return tt, emit (EvWrite (if complete then x11 else x10)) s)).
  { destruct complete.
    - change 0x11 with (byte_value x11). apply write_literal.
    - change 0x10 with (byte_value x10). apply write_literal. }
  rewrite Hop. subst d1 d2.
  destruct s as [m d a r x l]. norm_session.
  unfold attr, timeout. norm_session. unfold response at 1. norm_session.
  change 0xff with (byte_value xff). rewrite write_literal. norm_session.
  unfold response. norm_session. rewrite <- !app_assoc. cbn [app].
  destruct (firstn 1 (hd [] (tl x))) as [| ack [| ? ?]] eqn:H2.
  - reflexivity.
  - rewrite decoded_ne_x01. destruct (Byte.eqb ack x01); cbn [negb].
    + destruct (firstn 1 (hd [] x)) as [| e [| ? ?]] eqn:H1.
      * reflexivity.
      * unfold lift. rewrite ord_decoded. reflexivity.
      * exfalso. pose proof (firstn_le_length 1 (hd [] x)) as Hle.
        rewrite H1 in Hle. cbn [List.length] in Hle. lia.
    + reflexivity.
  - exfalso. pose proof (firstn_le_length 1 (hd [] (tl x))) as Hle.
    rewrite H2 in Hle. cbn [List.length] in Hle. lia.
Qed.

(** ** The drain loop of [stop_getting_adc_voltages] *)

(** On a device that stays silent every probe is made. *)
Lemma probe_loop_silent (k : nat) :
  forall s : session,
    Forall (fun d => d = []) (rx s) ->
    probe_loop k s =
      (Return tt,
       mkSession (mode s) (minDelay s) (attempts s) (retry_limit s)
         (skipn k (rx s))
         (log s ++ List.concat (repeat (probe []) k))).
Proof.
  induction k as [| k IH]; intros s Hs.
  - cbn [probe_loop repeat List.concat skipn]. rewrite app_nil_r.
    destruct s; reflexivity.
  - cbn [probe_loop]. unfold bind.
    change 0x00 with (byte_value x00). rewrite write_literal.
    destruct s as [m d a r x l]. cbn [rx] in Hs. norm_session.
    unfold response. norm_session.
    assert (Hhd : firstn 1 (hd [] x) = []).
    { destruct Hs as [| d0 x' Hd0 _]; [reflexivity | subst d0; reflexivity]. }
    rewrite Hhd. cbn [truthy].
    rewrite IH.
    + cbn [mode minDelay attempts retry_limit rx log repeat List.concat probe].
      rewrite skipn_tl, <- !app_assoc. reflexivity.
    + cbn [rx]. destruct Hs; [constructor | assumption].
Qed.

(** X8. A device that never answers: in adc mode, when every read
    times out empty, [stop_getting_adc_voltages] sends all five probes
    0x00 and still returns 1, with the session in bitbang mode. *)
Theorem stop_getting_adc_voltages_silent (s : session) :
  mode s = "adc"%string ->
  Forall (fun d => d = []) (rx s) ->
  stop_getting_adc_voltages s =
    (Return (VInt 1),
     mkSession bitbang_mode (minDelay s) (attempts s) (retry_limit s)
       (skipn 5 (rx s))
       (log s ++ [EvFlushInput;
                  EvWrite x00; EvRead 1 []; EvWrite x00; EvRead 1 [];
                  EvWrite x00; EvRead 1 []; EvWrite x00; EvRead 1 [];
                  EvWrite x00; EvRead 1 [];
                  EvFlushInput; EvEnterBB])).
Proof.
  intros Hmode Hsilent.
  unfold stop_getting_adc_voltages, bind, check_mode.
  rewrite Hmode. cbn [String.eqb Ascii.eqb Bool.eqb]. unfold flushInput at 1.
  rewrite probe_loop_silent
    by (destruct s; cbn [emit rx mode minDelay attempts retry_limit log] in *;
        exact Hsilent).
  destruct s as [m d a r x l]. norm_session.
  unfold flushInput, enter_bb, ret. norm_session.
  cbn [repeat List.concat probe app]. rewrite <- !app_assoc. reflexivity.
Qed.

Lemma stop_getting_adc_voltages_silent_witness :
  stop_getting_adc_voltages (adc_session [[]; []]) =
    (Return (VInt 1),
     mkSession bitbang_mode 0.01%float 0 15 []
       ([] ++ [EvFlushInput;
               EvWrite x00; EvRead 1 []; EvWrite x00; EvRead 1 [];
               EvWrite x00; EvRead 1 []; EvWrite x00; EvRead 1 [];
               EvWrite x00; EvRead 1 [];
               EvFlushInput; EvEnterBB])).
Proof.
  apply (stop_getting_adc_voltages_silent (adc_session [[]; []])).
  - reflexivity.
  - simpl. repeat constructor.
Defined.

(** After [i] empty reads, a non-empty read ends the loop. *)
Lemma probe_loop_answered (i : nat) :
  forall (k : nat) (s : session) (b : byte) (t : list byte)
         (rest : list (list byte)),
    (i < k)%nat ->
    rx s = repeat [] i ++ (b :: t) :: rest ->
    probe_loop k s =
      (Return tt,
       mkSession (mode s) (minDelay s) (attempts s) (retry_limit s) rest
         (log s ++ List.concat (repeat (probe []) i) ++ probe [b])).
Proof.
  induction i as [| i IH]; intros k s b t rest Hik Hrx;
    (destruct k as [| k]; [lia |]);
    cbn [probe_loop]; unfold bind;
    change 0x00 with (byte_value x00); rewrite write_literal;
    destruct s as [m d a r x l]; cbn [rx] in Hrx; subst x; norm_session;
    unfold response; norm_session; cbn [repeat app hd tl firstn truthy].
  - unfold ret. cbn [List.concat probe app].
    rewrite <- !app_assoc. reflexivity.
  - rewrite (IH k _ b t rest); [| lia | reflexivity].
    cbn [mode minDelay attempts retry_limit rx log List.concat probe app].
    rewrite <- !app_assoc. reflexivity.
Qed.

(** X9. The drain loop stops at the first answer: in adc mode, when the
    first [i] reads (i below 5) time out empty and the next one delivers
    a byte [b], [stop_getting_adc_voltages] sends exactly [i + 1]
    probes, leaves the rest of the input to the second flush, and
    returns 1. *)
Theorem stop_getting_adc_voltages_answered
        (s : session) (i : nat) (b : byte) (t : list byte)
        (rest : list (list byte)) :
  mode s = "adc"%string ->
  (i < 5)%nat ->
  rx s = repeat [] i ++ (b :: t) :: rest ->
  stop_getting_adc_voltages s =
    (Return (VInt 1),
     mkSession bitbang_mode (minDelay s) (attempts s) (retry_limit s) rest
       (log s ++ [EvFlushInput] ++ List.concat (repeat (probe []) i)
              ++ probe [b] ++ [EvFlushInput; EvEnterBB])).
Proof.
  intros Hmode Hi Hrx.
  unfold stop_getting_adc_voltages, bind, check_mode.
  rewrite Hmode. cbn [String.eqb Ascii.eqb Bool.eqb]. unfold flushInput at 1.
  rewrite (probe_loop_answered i 5 _ b t rest Hi)
    by (destruct s; cbn [emit rx mode minDelay attempts retry_limit log] in *;
        exact Hrx).
  destruct s as [m d a r x l]. norm_session.
  unfold flushInput, enter_bb, ret. norm_session.
  rewrite <- !app_assoc. reflexivity.
Qed.

Lemma stop_getting_adc_voltages_answered_witness :
  stop_getting_adc_voltages (adc_session [[]; []; [x05]; [x01]]) =
    (Return (VInt 1),
     mkSession bitbang_mode 0.01%float 0 15 [[x01]]
       ([] ++ [EvFlushInput] ++ List.concat (repeat (probe []) 2)
           ++ probe [x05] ++ [EvFlushInput; EvEnterBB])).
Proof.
  apply (stop_getting_adc_voltages_answered
           (adc_session [[]; []; [x05]; [x01]]) 2 x05 [] [[x01]]).
  - reflexivity.
  - lia.
  - reflexivity.
Defined.

(** X10. [start_getting_adc_voltages] sends 0x15 and nothing else: it
    does not put the session in adc mode.  Called from any other mode
    and followed by [stop_getting_adc_voltages], the second call raises
    the mode error with 0x15 as the only byte sent. *)
Theorem start_then_stop (s : session) :
  mode s <> "adc"%string ->
  (start_getting_adc_voltages ;; stop_getting_adc_voltages) s =
    (Raise (ModeError "adc"),
     mkSession (mode s) (minDelay s) (attempts s) (retry_limit s) (rx s)
       (log s ++ [EvWrite x15])).
Proof.
  intros Hmode. unfold start_getting_adc_voltages, bind.
  change 0x15 with (byte_value x15). rewrite write_literal.
  unfold ret, stop_getting_adc_voltages, bind, check_mode.
  destruct s as [m d a r x l]. cbn [mode] in Hmode. norm_session.
  destruct (String.eqb_spec m "adc"); [contradiction | reflexivity].
Qed.

Lemma start_then_stop_witness :
  (start_getting_adc_voltages ;; stop_getting_adc_voltages)
    (demo_session [[x01; xf4]]) =
    (Raise (ModeError "adc"),
     mkSession "bb" 0.01%float 0 15 [[x01; xf4]] ([] ++ [EvWrite x15])).
Proof.
  apply (start_then_stop (demo_session [[x01; xf4]])). discriminate.
Defined.

(** ** The 16-bit fields of the PWM payload *)

Lemma split_16 (z : Z) :
  Z.shiftl (Z.land (Z.shiftr z 8) 0xFF) 8 + Z.land z 0xFF = z mod 65536.
Proof.
  change 0xFF with (Z.ones 8).
  rewrite !Z.land_ones, Z.shiftr_div_pow2, Z.shiftl_mul_pow2 by lia.
  change (2 ^ 8) with 256. change 65536 with (256 * 256).
  rewrite Z.rem_mul_r by lia. lia.
Qed.

(** X11. The duty and period fields of the payload are big-endian
    16-bit fields: read back the way [adc] reads a sample, high byte
    first, the two duty bytes give the duty value and the two period
    bytes the period value, each modulo 65536.  A value that needs more
    than 16 bits is cut down silently, with no error. *)
Theorem setup_PWM_fields (prescaler dutycycle period : Z) (s : session) :
  0 <= prescaler < 256 ->
  exists bp bdh bdl bph bpl : byte,
    log (snd (setup_PWM prescaler dutycycle period s)) =
      log s ++ [EvWrite x12; EvWrite bp; EvWrite bdh; EvWrite bdl;
                EvWrite bph; EvWrite bpl;
                EvTimeout (minDelay s * 10)%float;
                EvRead 1 (firstn 1 (hd [] (rx s)))]
    /\ byte_value bp = prescaler
    /\ sample_raw bdh bdl = dutycycle mod 65536
    /\ sample_raw bph bpl = period mod 65536.
Proof.
  intros Hp.
  destruct (setup_PWM_run prescaler dutycycle period s Hp) as (bs & Hbs & Hrun).
  destruct bs as [| b0 [| bp [| bdh [| bdl [| bph [| bpl [| ? ?]]]]]]];
    try discriminate Hbs.
  cbn [map] in Hbs.
  injection Hbs as H0 Hbp Hdh Hdl Hph Hpl.
  exists bp, bdh, bdl, bph, bpl.
  assert (Hop : b0 = x12).
  { unfold byte_value in H0.
    assert (Hn : Byte.to_N b0 = Byte.to_N x12) by (cbn; lia).
    apply (f_equal Byte.of_N) in Hn. rewrite !Byte.of_to_N in Hn.
    injection Hn as ->. reflexivity. }
  subst b0. rewrite Hrun. cbn [snd log map app].
  split; [reflexivity |]. split; [exact Hbp |].
  unfold sample_raw. rewrite Hdh, Hdl, Hph, Hpl. split; apply split_16.
Qed.

Lemma setup_PWM_fields_witness :
  exists bp bdh bdl bph bpl : byte,
    log (snd (setup_PWM 0 500 (65536 + 1000) (demo_session [[x01]]))) =
      [] ++ [EvWrite x12; EvWrite bp; EvWrite bdh; EvWrite bdl;
             EvWrite bph; EvWrite bpl;
             EvTimeout (0.01 * 10)%float; EvRead 1 [x01]]
    /\ byte_value bp = 0
    /\ sample_raw bdh bdl = 500
    /\ sample_raw bph bpl = 1000.
Proof.
  apply (setup_PWM_fields 0 500 (65536 + 1000) (demo_session [[x01]])). lia.
Defined.

(** ** The prescaler search as a first-fit search *)

(** Where the loop over [ns] breaks: at an entry whose period is below
    65535, every entry before it having a period of 65535 or more. *)
Lemma prescaler_loop_break (G : namespace) (PwmPeriod Tcy : float)
      (ns : list Z) :
  forall pre ocr pry : Z,
    prescaler_loop G PwmPeriod Tcy ns = Return (pre, ocr, pry) ->
    exists (before : list Z) (n : Z) (after : list Z),
      ns = before ++ n :: after
      /\ dict_get PrescalerList n = Return pre
      /\ candidate_period PwmPeriod Tcy pre = Return pry
      /\ pry < 65535
      /\ Forall (fun m => exists q p : Z,
                   dict_get PrescalerList m = Return q
                   /\ candidate_period PwmPeriod Tcy q = Return p
                   /\ 65535 <= p) before.
Proof.
  induction ns as [| n rest IH]; intros pre ocr pry Hrun; [discriminate Hrun |].
  cbn [prescaler_loop] in Hrun.
  destruct (dict_get PrescalerList n) as [q | |] eqn:Hq;
    cbn [obind] in Hrun; try discriminate Hrun.
  destruct (float_mul Tcy (NInt q)) as [den | |] eqn:Hden;
    cbn [obind] in Hrun; try discriminate Hrun.
  destruct (float_truediv (PwmPeriod * 1.0)%float (NFloat den)) as [x | |] eqn:Hx;
    cbn [obind] in Hrun; try discriminate Hrun.
  destruct (PyFloat.trunc (x - 1)%float) as [p | |] eqn:Hp;
    cbn [obind] in Hrun; try discriminate Hrun.
  assert (Hcand : candidate_period PwmPeriod Tcy q = Return p).
  { unfold candidate_period. rewrite Hden. cbn [obind]. rewrite Hx.
    cbn [obind]. exact Hp. }
  destruct (load_global G "DutyCycle") as [b | |];
    cbn [obind] in Hrun; try discriminate Hrun.
  destruct (operand b) as [D | |]; cbn [obind] in Hrun; try discriminate Hrun.
  destruct (int_mul p D) as [prod | |];
    cbn [obind] in Hrun; try discriminate Hrun.
  destruct (py_int prod) as [o | |]; cbn [obind] in Hrun; try discriminate Hrun.
  change (2 ^ 16 - 1) with 65535 in Hrun.
  destruct (Z.ltb_spec p 65535) as [Hlt | Hge].
  - injection Hrun as <- <- <-.
    exists [], n, rest. repeat split; try assumption. constructor.
  - destruct (IH pre ocr pry Hrun)
      as (before & n' & after & -> & Hd & Hc & Hl & Hall).
    exists (n :: before), n', after. repeat split; try assumption.
    constructor; [| exact Hall]. exists q, p. auto.
Qed.

(** Settle the five leading conjuncts of the first-fit statement once
    the index and the prescaler value are known. *)
Ltac first_five :=
  split; [lia |]; split; [assumption |]; split; [cbn; auto 6 |];
  split; [assumption |]; split; [assumption |].

(** X12. The loop of [set_pwm_frequency] is a first-fit search, in any
    namespace in which it gets as far as its [break]: the candidate it
    keeps has index [n] in 0..3, its period is below 65535, every
    candidate of smaller index has a period of 65535 or more, and what
    is kept for [setup_PWM] is the prescaler value 1, 8, 64 or 256. *)
Theorem prescaler_loop_first_fit (G : namespace) (PwmPeriod Tcy : float)
        (pre ocr pry : Z) :
  prescaler_loop G PwmPeriod Tcy [0; 1; 2; 3] = Return (pre, ocr, pry) ->
  exists n : Z,
    0 <= n <= 3
    /\ dict_get PrescalerList n = Return pre
    /\ In pre [1; 8; 64; 256]
    /\ candidate_period PwmPeriod Tcy pre = Return pry
    /\ pry < 65535
    /\ forall m : Z, 0 <= m < n ->
         exists q p : Z,
           dict_get PrescalerList m = Return q
           /\ candidate_period PwmPeriod Tcy q = Return p
           /\ 65535 <= p.
Proof.
  intros Hrun.
  destruct (prescaler_loop_break G PwmPeriod Tcy _ pre ocr pry Hrun)
    as (before & n & after & Hns & Hd & Hc & Hl & Hall).
  exists n.
  pose proof Hd as Hd'.
  destruct before as [| a [| b [| c [| d e]]]]; cbn [app] in Hns.
  - injection Hns as <- _. cbn in Hd'. injection Hd' as <-.
    first_five.
    intros m Hm. lia.
  - injection Hns as <- <- _. cbn in Hd'. injection Hd' as <-.
    first_five.
    intros m Hm. assert (m = 0) by lia. subst m.
    inversion Hall; subst. assumption.
  - injection Hns as <- <- <- _. cbn in Hd'. injection Hd' as <-.
    first_five.
    intros m Hm. inversion Hall as [| ? ? H0 Hall1]; subst.
    inversion Hall1; subst.
    assert (Hcase : m = 0 \/ m = 1) by lia. destruct Hcase; subst m; assumption.
  - injection Hns as <- <- <- <- _. cbn in Hd'. injection Hd' as <-.
    first_five.
    intros m Hm. inversion Hall as [| ? ? H0 Hall1]; subst.
    inversion Hall1 as [| ? ? H1 Hall2]; subst. inversion Hall2; subst.
    assert (Hcase : m = 0 \/ m = 1 \/ m = 2) by lia.
    destruct Hcase as [-> | [-> | ->]]; assumption.
  - exfalso. apply (f_equal (@List.length Z)) in Hns.
    cbn [List.length] in Hns. rewrite length_app in Hns.
    cbn [List.length] in Hns. lia.
Qed.

Lemma prescaler_loop_first_fit_witness :
  exists n : Z,
    0 <= n <= 3
    /\ dict_get PrescalerList n = Return 8
    /\ In 8 [1; 8; 64; 256]
    /\ candidate_period (1.0 / 100)%float (2.0 / 24e6)%float 8 = Return 14999
    /\ 14999 < 65535
    /\ forall m : Z, 0 <= m < n ->
         exists q p : Z,
           dict_get PrescalerList m = Return q
           /\ candidate_period (1.0 / 100)%float (2.0 / 24e6)%float q = Return p
           /\ 65535 <= p.
Proof.
  apply (prescaler_loop_first_fit (with_DutyCycle 0.5)
           (1.0 / 100)%float (2.0 / 24e6)%float 8 7499 14999).
  vm_compute. reflexivity.
Defined.

(** ** The voltage determines the sample *)

Lemma all_samples_recovered :
  check_range sample_recovered 0 (Z.to_nat 65536) = true.
Proof. vm_compute. reflexivity. Qed.

Lemma sample_voltage_inj (r1 r2 : Z) :
  0 <= r1 < 65536 -> 0 <= r2 < 65536 ->
  sample_voltage r1 = sample_voltage r2 -> r1 = r2.
Proof.
  intros H1 H2 Hv.
  assert (Hrec : forall r, 0 <= r < 65536 ->
                           raw_of_voltage (sample_voltage r) = r).
  { intros r Hr. apply Z.eqb_eq.
    apply (check_range_spec sample_recovered (Z.to_nat 65536) 0
             all_samples_recovered).
    rewrite Z2Nat.id; lia. }
  rewrite <- (Hrec r1 H1), <- (Hrec r2 H2), Hv. reflexivity.
Qed.

Lemma byte_value_inj (a b : byte) : byte_value a = byte_value b -> a = b.
Proof.
  unfold byte_value. intros H. apply N2Z.inj in H.
  apply (f_equal Byte.of_N) in H. rewrite !Byte.of_to_N in H.
  injection H as ->. reflexivity.
Qed.

Lemma adc_outcome (s : session) (b0 b1 : byte) (rest : list (list byte)) :
  rx s = [b0; b1] :: rest ->
  fst (adc s) = Return (VFloat (sample_voltage (sample_raw b0 b1))).
Proof.
  intros Hrx. unfold adc, bind.
  change 0x14 with (byte_value x14). rewrite write_literal.
  unfold attr, timeout.
  rewrite (response_script 2 true _ [b0; b1] rest) by exact Hrx.
  cbn [firstn]. unfold lift. rewrite decode_voltage_bytes. reflexivity.
Qed.

(** X13. [adc] loses nothing of the sample: two reads that return the
    same voltage were given the same two bytes, so all 65536 samples
    have distinct voltages. *)
Theorem adc_injective (s1 s2 : session) (a0 a1 b0 b1 : byte)
        (r1 r2 : list (list byte)) :
  rx s1 = [a0; a1] :: r1 ->
  rx s2 = [b0; b1] :: r2 ->
  fst (adc s1) = fst (adc s2) ->
  a0 = b0 /\ a1 = b1.
Proof.
  intros H1 H2 Heq.
  rewrite (adc_outcome s1 a0 a1 r1 H1), (adc_outcome s2 b0 b1 r2 H2) in Heq.
  injection Heq as Hv.
  apply sample_voltage_inj in Hv; try apply sample_raw_range.
  unfold sample_raw in Hv. rewrite !Z.shiftl_mul_pow2 in Hv by lia.
  change (2 ^ 8) with 256 in Hv.
  pose proof (byte_value_range a0). pose proof (byte_value_range a1).
  pose proof (byte_value_range b0). pose proof (byte_value_range b1).
  split; apply byte_value_inj; lia.
Qed.

Lemma adc_injective_witness : x01 = x01 /\ xf4 = xf4.
Proof.
  apply (adc_injective (demo_session [[x01; xf4]])
           (adc_session [[x01; xf4]; [x00]]) x01 xf4 x01 xf4 [] [[x00]]);
    reflexivity.
Defined.

(** ** [set_pwm_frequency] in any namespace *)

(** The operators never leave a computation without an answer. *)
Lemma obind_answers {A B} (o : outcome A) (k : A -> outcome B) :
  o <> OutOfFuel -> (forall a, k a <> OutOfFuel) -> obind o k <> OutOfFuel.
Proof.
  intros Ho Hk. destruct o as [a | e |]; cbn [obind];
    [apply Hk | discriminate | contradiction].
Qed.

Lemma of_Z_answers (z : Z) : PyFloat.of_Z z <> OutOfFuel.
Proof. unfold PyFloat.of_Z. destruct (is_infinity _); discriminate. Qed.

Lemma trunc_answers (f : float) : PyFloat.trunc f <> OutOfFuel.
Proof. unfold PyFloat.trunc. destruct (Prim2SF f); discriminate. Qed.

Lemma float_mul_answers (a : float) (n : number) : float_mul a n <> OutOfFuel.
Proof.
  destruct n; cbn [float_mul]; [| discriminate].
  apply obind_answers; [apply of_Z_answers | discriminate].
Qed.

Lemma float_truediv_answers (a : float) (n : number) :
  float_truediv a n <> OutOfFuel.
Proof.
  destruct n as [z | f]; cbn [float_truediv].
  - destruct (z =? 0); [discriminate |].
    apply obind_answers; [apply of_Z_answers | discriminate].
  - destruct (is_zero f); discriminate.
Qed.

Lemma int_mul_answers (a : Z) (n : number) : int_mul a n <> OutOfFuel.
Proof.
  destruct n; cbn [int_mul]; [discriminate |].
  apply obind_answers; [apply of_Z_answers | discriminate].
Qed.

Lemma py_int_answers (n : number) : py_int n <> OutOfFuel.
Proof. destruct n; cbn [py_int]; [discriminate | apply trunc_answers]. Qed.

Lemma operand_answers (b : binding) : operand b <> OutOfFuel.
Proof. destruct b; discriminate. Qed.

Lemma load_global_answers (G : namespace) (name : string) :
  load_global G name <> OutOfFuel.
Proof.
  unfold load_global. destruct (lookup name G); [discriminate |].
  destruct (lookup name builtins); discriminate.
Qed.

Lemma dict_get_answers (d : list (Z * Z)) (k : Z) : dict_get d k <> OutOfFuel.
Proof.
  induction d as [| [k' v] rest IH]; cbn [dict_get]; [discriminate |].
  destruct (k' =? k); [discriminate | exact IH].
Qed.

Lemma prescaler_loop_answers (G : namespace) (PwmPeriod Tcy : float)
      (ns : list Z) :
  prescaler_loop G PwmPeriod Tcy ns <> OutOfFuel.
Proof.
  induction ns as [| n rest IH]; cbn [prescaler_loop]; [discriminate |].
  apply obind_answers; [apply dict_get_answers | intros q].
  apply obind_answers; [apply float_mul_answers | intros den].
  apply obind_answers; [apply float_truediv_answers | intros x].
  apply obind_answers; [apply trunc_answers | intros p].
  apply obind_answers; [apply load_global_answers | intros b].
  apply obind_answers; [apply operand_answers | intros D].
  apply obind_answers; [apply int_mul_answers | intros prod].
  apply obind_answers; [apply py_int_answers | intros o].
  destruct (p <? 2 ^ 16 - 1); [discriminate | exact IH].
Qed.

(** [setup_PWM] ends in an exception whatever it is given: the error of
    the comparison when the prescaler is a byte, and the error of the
    second [write] when it is not. *)
Lemma setup_PWM_raises (prescaler dutycycle period : Z) (s : session) :
  exists (e : exn) (s' : session),
    setup_PWM prescaler dutycycle period s = (Raise e, s').
Proof.
  destruct (Z_lt_ge_dec prescaler 0) as [Hneg | Hpos];
    [| destruct (Z_lt_ge_dec prescaler 256) as [Hlt | Hbig]].
  - unfold setup_PWM, bind.
    change 0x12 with (byte_value x12). rewrite write_literal.
    unfold write at 1.
    destruct (Z.leb_spec 0 prescaler); [lia |]. eauto.
  - destruct (setup_PWM_run prescaler dutycycle period s) as (bs & _ & Hrun);
      [lia |]. rewrite Hrun. eauto.
  - unfold setup_PWM, bind.
    change 0x12 with (byte_value x12). rewrite write_literal.
    unfold write at 1.
    destruct (Z.leb_spec 0 prescaler); [| lia].
    destruct (Byte.of_N (Z.to_N prescaler)) as [b |] eqn:Hb; [| eauto].
    apply Byte.to_of_N in Hb. pose proof (Byte.to_N_bounded b). lia.
Qed.

(** X14. [set_pwm_frequency] cannot succeed, and not only for the
    misspelt name: in every namespace, for all arguments and sessions,
    a call ends in an exception.  When the search reaches [setup_PWM]
    that call raises, so the branch that returns 1 is never taken. *)
Theorem set_pwm_frequency_in_raises
        (G : namespace) (frequency dutycycle : number) (s : session) :
  exists (e : exn) (s' : session),
    set_pwm_frequency_in G frequency dutycycle s = (Raise e, s').
Proof.
  unfold set_pwm_frequency_in. cbn [set_pwm_frequency_fuel].
  unfold set_pwm_frequency_body, bind, lift.
  pose proof (obind_answers (load_global G "DutyCycle") operand
                (load_global_answers G "DutyCycle") operand_answers) as H1.
  destruct (obind (load_global G "DutyCycle") (fun b => operand b))
    as [D | e |]; [| eauto | contradiction].
  destruct (py_gt D 1); [unfold raise; eauto |].
  pose proof (float_truediv_answers 1.0 frequency) as H2.
  destruct (float_truediv 1.0 frequency) as [P | e |];
    [| eauto | contradiction].
  pose proof (prescaler_loop_answers G P (2.0 / 24e6)%float [0; 1; 2; 3]) as H3.
  destruct (prescaler_loop G P (2.0 / 24e6)%float [0; 1; 2; 3])
    as [[[pre ocr] pry] | e |]; [| eauto | contradiction].
  destruct (setup_PWM_raises pre ocr pry s) as (e & s' & Hrun).
  rewrite Hrun. eauto.
Qed.
